(** * Booking conflict detection of the admin portal

    A shallow embedding of [server/src/routes/bookings.ts] (the create and
    update handlers with their conflict queries) over the relational schema
    of [server/prisma/migrations/20250810092110_migrate/migration.sql].

    - timestamps ([TIMESTAMP(3)], JavaScript [Date]) are integers: the
      number of milliseconds since the epoch;
    - a table is the list of its rows, in insertion order;
    - a [prisma.*] call is one atomic database operation; a handler is a
      program issuing such calls one after the other, with the [try]/[catch]
      of the source around it. *)

From Stdlib Require Import ZArith List String Bool Lia.
Import ListNotations.

Local Open Scope Z_scope.
Set Warnings "-register-all".

(* ================================================================== *)
(** * Part I: the program *)

(* ------------------------------------------------------------------ *)
(** ** The schema (migration.sql) *)

Module Schema.

(** [CREATE TYPE "BookingStatus" AS ENUM (...)] *)
Inductive BookingStatus :=
| PENDING | CONFIRMED | CANCELLED | COMPLETED | NO_SHOW.

Definition status_eqb (a b : BookingStatus) : bool :=
  match a, b with
  | PENDING, PENDING | CONFIRMED, CONFIRMED | CANCELLED, CANCELLED
  | COMPLETED, COMPLETED | NO_SHOW, NO_SHOW => true
  | _, _ => false
  end.

Definition DateTime := Z.

(** A row of ["bookings"], without the columns [createdAt] and
    [updatedAt]: the database fills them in and the answers carry them, but
    no handler reads or compares them. What is stated below of a row, of a
    store or of an answer is stated of the columns kept. *)
Record Booking := mkBooking {
  id : string;
  startTime : DateTime;
  endTime : DateTime;
  status : BookingStatus;
  notes : option string
}.

(** A row of ["bookings_on_users"] or ["bookings_on_services"]: the pair
    of foreign keys. The key of the row itself and [createdAt], which the
    database sets on every insert, are left out in the same way. *)
Record Link := mkLink { bookingId : string; targetId : string }.

(** The database: the primary keys of ["users"] and ["services"] (the only
    columns of these tables the booking routes depend on), the bookings,
    the two link tables. *)
Record DB := mkDB {
  users : list string;
  services : list string;
  bookings : list Booking;
  bookingsOnUsers : list Link;
  bookingsOnServices : list Link
}.

Definition memb (x : string) (l : list string) : bool :=
  existsb (String.eqb x) l.

Definition link_eqb (a b : Link) : bool :=
  String.eqb (bookingId a) (bookingId b) && String.eqb (targetId a) (targetId b).

Definition linkb (x : Link) (l : list Link) : bool := existsb (link_eqb x) l.

Fixpoint distinctb (l : list string) : bool :=
  match l with
  | [] => true
  | x :: r => negb (memb x r) && distinctb r
  end.

Fixpoint distinctLinks (l : list Link) : bool :=
  match l with
  | [] => true
  | x :: r => negb (linkb x r) && distinctLinks r
  end.

Definition bookingIds (db : DB) : list string := map id (bookings db).

(** What a query with [include: { users: ..., services: ... }] returns:
    the row and the keys of the users and services linked to it. *)
Record BookingInc := mkInc {
  row : Booking;
  incUsers : list string;
  incServices : list string
}.

Definition linked (bid : string) (t : list Link) : list string :=
  map targetId (filter (fun l => String.eqb (bookingId l) bid) t).

Definition withRelations (db : DB) (b : Booking) : BookingInc :=
  {| row := b;
     incUsers := linked (id b) (bookingsOnUsers db);
     incServices := linked (id b) (bookingsOnServices db) |}.

End Schema.
Import Schema.

(* ------------------------------------------------------------------ *)
(** ** Prisma filters and queries *)

(** [{ lt, lte, gt, gte }] on a DateTime column; an absent key is [None]. *)
Module Filter.

Record t := mk { lt : option Z; lte : option Z; gt : option Z; gte : option Z }.

Definition holds (cmp : Z -> Z -> bool) (bound : option Z) (d : Z) : bool :=
  match bound with
  | Some x => cmp d x
  | None => true
  end.

Definition matches (f : t) (d : Z) : bool :=
  holds Z.ltb (lt f) d && holds Z.leb (lte f) d &&
  holds Z.gtb (gt f) d && holds Z.geb (gte f) d.

End Filter.

Module Prisma.

(** The [where] arguments the booking routes build: the keys of the
    conflict queries ([id: { not }], [startTime], [endTime], [OR]) and those
    of the list route ([status], [users: { some: { userId } }],
    [services: { some: { serviceId } }]). An object with several keys is
    the conjunction of its keys. *)
Inductive BookingWhere :=
| W_id_not (i : string)
| W_startTime (f : Filter.t)
| W_endTime (f : Filter.t)
| W_status (s : BookingStatus)
| W_users_some (userId : string)
| W_services_some (serviceId : string)
| W_OR (ws : list BookingWhere)
| W_AND (ws : list BookingWhere).

Fixpoint whereMatches (db : DB) (w : BookingWhere) (b : Booking) : bool :=
  match w with
  | W_id_not i => negb (String.eqb (id b) i)
  | W_startTime f => Filter.matches f (startTime b)
  | W_endTime f => Filter.matches f (endTime b)
  | W_status s => status_eqb (status b) s
  | W_users_some u => memb u (linked (id b) (bookingsOnUsers db))
  | W_services_some s => memb s (linked (id b) (bookingsOnServices db))
  | W_OR ws => existsb (fun w' => whereMatches db w' b) ws
  | W_AND ws => forallb (fun w' => whereMatches db w' b) ws
  end.

(** [prisma.booking.findFirst({ where })] *)
Definition findFirst (db : DB) (w : BookingWhere) : option Booking :=
  find (whereMatches db w) (bookings db).

(** [prisma.booking.findUnique({ where: { id } })] *)
Definition findUnique (db : DB) (i : string) : option Booking :=
  find (fun b => String.eqb (id b) i) (bookings db).

End Prisma.
Import Prisma.

(* ------------------------------------------------------------------ *)
(** ** The [where] objects of bookings.ts *)

(** GET /, lines 26-53: each key is set when its query parameter is given
    ([startTime] when both dates are). *)
Definition optKey {A} (o : option A) (k : A -> BookingWhere) : list BookingWhere :=
  match o with
  | Some a => [k a]
  | None => []
  end.

Definition listWhere (dates : option (Z * Z)) (status : option BookingStatus)
    (userId serviceId : option string) : BookingWhere :=
  W_AND (optKey dates (fun d =>
           W_startTime {| Filter.lt := None; Filter.lte := Some (snd d);
                          Filter.gt := None; Filter.gte := Some (fst d) |})
         ++ optKey status W_status
         ++ optKey userId W_users_some
         ++ optKey serviceId W_services_some).

(** The [OR: [...]] of both conflict queries, for a candidate
    [startTime], [endTime] (lines 241-254 and 350-363). *)
Definition overlapOR (candStart candEnd : Z) : BookingWhere :=
  W_OR [ W_startTime {| Filter.lt := Some candEnd; Filter.lte := None;
                        Filter.gt := None; Filter.gte := Some candStart |};
         W_endTime {| Filter.lt := None; Filter.lte := Some candEnd;
                      Filter.gt := Some candStart; Filter.gte := None |} ].

(** POST /: [where: { OR: [...] }] *)
Definition createConflictWhere (candStart candEnd : Z) : BookingWhere :=
  overlapOR candStart candEnd.

(** PUT /:id: [where: { id: { not: id }, OR: [...] }] *)
Definition updateConflictWhere (i : string) (candStart candEnd : Z) : BookingWhere :=
  W_AND [ W_id_not i; overlapOR candStart candEnd ].

(** Both queries as one check with an optional excluded identifier. *)
Definition conflictWhere (candStart candEnd : Z) (excludeId : option string)
  : BookingWhere :=
  match excludeId with
  | None => createConflictWhere candStart candEnd
  | Some i => updateConflictWhere i candStart candEnd
  end.

(** The row the conflict query finds, and the truthiness the handlers test
    ([if (conflictingBooking)]). *)
Definition conflictingBooking (db : DB) (candStart candEnd : Z)
    (excludeId : option string) : option Booking :=
  findFirst db (conflictWhere candStart candEnd excludeId).

Definition isSome {A} (o : option A) : bool :=
  match o with Some _ => true | None => false end.

Definition hasConflict (db : DB) (candStart candEnd : Z)
    (excludeId : option string) : bool :=
  isSome (conflictingBooking db candStart candEnd excludeId).

(** The two range conditions of the [OR] on one stored row, with the
    candidate in the first two arguments. *)
Definition sourceOverlaps (candStart candEnd : Z) (b : Booking) : bool :=
  Filter.matches {| Filter.lt := Some candEnd; Filter.lte := None;
                    Filter.gt := None; Filter.gte := Some candStart |} (startTime b)
  || Filter.matches {| Filter.lt := None; Filter.lte := Some candEnd;
                       Filter.gt := Some candStart; Filter.gte := None |} (endTime b).

(* ------------------------------------------------------------------ *)
(** ** Writes, with the constraints of migration.sql *)

Module Writes.

(** [data] of [prisma.booking.create]: the scalar fields and the nested
    [users: { create: [...] }], [services: { create: [...] }]. *)
Record CreateData := mkCreateData {
  c_startTime : Z;
  c_endTime : Z;
  c_status : BookingStatus;
  c_notes : option string;
  c_users : list string;
  c_services : list string
}.

(** [updateData] of PUT /:id: a key that was not assigned is [None]. *)
Record UpdateData := mkUpdateData {
  u_startTime : option Z;
  u_endTime : option Z;
  u_notes : option string;
  u_status : option BookingStatus
}.

(** The key of a new row comes from the client library when the row is
    written; here it is the argument [newId] of the write. *)
Definition newBooking (newId : string) (d : CreateData) : Booking :=
  {| id := newId; startTime := c_startTime d; endTime := c_endTime d;
     status := c_status d; notes := c_notes d |}.

Definition linksOf (bid : string) (targets : list string) : list Link :=
  map (fun t => {| bookingId := bid; targetId := t |}) targets.

(** The constraints a nested create has to meet: [bookings_pkey], the two
    foreign keys to ["users"] and ["services"], and the unique indexes on
    (bookingId, userId) and (bookingId, serviceId). *)
Definition createAccepted (db : DB) (newId : string) (d : CreateData) : bool :=
  negb (memb newId (bookingIds db)) &&
  forallb (fun u => memb u (users db)) (c_users d) &&
  forallb (fun s => memb s (services db)) (c_services d) &&
  distinctb (c_users d) && distinctb (c_services d) &&
  negb (existsb (fun l => linkb l (bookingsOnUsers db)) (linksOf newId (c_users d))) &&
  negb (existsb (fun l => linkb l (bookingsOnServices db)) (linksOf newId (c_services d))).

Definition insertBooking (db : DB) (newId : string) (d : CreateData) : DB :=
  {| users := users db;
     services := services db;
     bookings := bookings db ++ [newBooking newId d];
     bookingsOnUsers := bookingsOnUsers db ++ linksOf newId (c_users d);
     bookingsOnServices := bookingsOnServices db ++ linksOf newId (c_services d) |}.

(** [prisma.booking.create({ data, include })]: one transaction; [None]
    when the database refuses it (the call throws). *)
Definition create (db : DB) (newId : string) (d : CreateData)
  : option (BookingInc * DB) :=
  if createAccepted db newId d then
    let db' := insertBooking db newId d in
    Some (withRelations db' (newBooking newId d), db')
  else None.

Definition orElse {A} (o : option A) (a : A) : A :=
  match o with Some x => x | None => a end.

Definition applyUpdate (d : UpdateData) (b : Booking) : Booking :=
  {| id := id b;
     startTime := orElse (u_startTime d) (startTime b);
     endTime := orElse (u_endTime d) (endTime b);
     status := orElse (u_status d) (status b);
     notes := match u_notes d with Some n => Some n | None => notes b end |}.

Definition updateRows (i : string) (d : UpdateData) (rows : list Booking)
  : list Booking :=
  map (fun b => if String.eqb (id b) i then applyUpdate d b else b) rows.

(** [prisma.booking.update({ where: { id }, data, include })]: throws when
    no row has this key. *)
Definition update (db : DB) (i : string) (d : UpdateData)
  : option (BookingInc * DB) :=
  match findUnique db i with
  | None => None
  | Some b =>
      let db' := {| users := users db; services := services db;
                    bookings := updateRows i d (bookings db);
                    bookingsOnUsers := bookingsOnUsers db;
                    bookingsOnServices := bookingsOnServices db |} in
      Some (withRelations db' (applyUpdate d b), db')
  end.

Definition dropLinks (bid : string) (t : list Link) : list Link :=
  filter (fun l => negb (String.eqb (bookingId l) bid)) t.

(** [deleteMany({ where: { bookingId } })] on either link table. *)
Definition usersDeleteMany (db : DB) (bid : string) : DB :=
  {| users := users db; services := services db; bookings := bookings db;
     bookingsOnUsers := dropLinks bid (bookingsOnUsers db);
     bookingsOnServices := bookingsOnServices db |}.

Definition servicesDeleteMany (db : DB) (bid : string) : DB :=
  {| users := users db; services := services db; bookings := bookings db;
     bookingsOnUsers := bookingsOnUsers db;
     bookingsOnServices := dropLinks bid (bookingsOnServices db) |}.

(** A [createMany] on a link table is one INSERT: all its rows have to
    meet both foreign keys and the unique index, or none is written. *)
Definition linksAccepted (db : DB) (targets : list string) (existing rows : list Link)
  : bool :=
  forallb (fun l => memb (bookingId l) (bookingIds db) && memb (targetId l) targets) rows &&
  distinctLinks rows &&
  negb (existsb (fun l => linkb l existing) rows).

Definition usersCreateMany (db : DB) (rows : list Link) : option DB :=
  if linksAccepted db (users db) (bookingsOnUsers db) rows then
    Some {| users := users db; services := services db; bookings := bookings db;
            bookingsOnUsers := bookingsOnUsers db ++ rows;
            bookingsOnServices := bookingsOnServices db |}
  else None.

Definition servicesCreateMany (db : DB) (rows : list Link) : option DB :=
  if linksAccepted db (services db) (bookingsOnServices db) rows then
    Some {| users := users db; services := services db; bookings := bookings db;
            bookingsOnUsers := bookingsOnUsers db;
            bookingsOnServices := bookingsOnServices db ++ rows |}
  else None.

End Writes.
Import Writes.

(* ------------------------------------------------------------------ *)
(** ** Handlers as programs over database calls *)

Module Handler.

(** The [await prisma...] calls of the create and update routes. *)
Inductive Query : Type :=
| BookingFindFirst (w : BookingWhere)
| BookingFindUnique (i : string)
| BookingFindUniqueInc (i : string)
| BookingCreate (newId : string) (d : CreateData)
| BookingUpdate (i : string) (d : UpdateData)
| UsersDeleteMany (bid : string)
| UsersCreateMany (rows : list Link)
| ServicesDeleteMany (bid : string)
| ServicesCreateMany (rows : list Link).

Definition Reply (q : Query) : Type :=
  match q with
  | BookingFindFirst _ | BookingFindUnique _ => option Booking
  | BookingFindUniqueInc _ => option BookingInc
  | BookingCreate _ _ | BookingUpdate _ _ => BookingInc
  | UsersDeleteMany _ | UsersCreateMany _
  | ServicesDeleteMany _ | ServicesCreateMany _ => unit
  end.

Definition unitReply (o : option DB) : option (unit * DB) :=
  match o with Some db => Some (tt, db) | None => None end.

(** One call against the database: the reply and the new state, or [None]
    when the call throws. *)
Definition exec (db : DB) (q : Query) : option (Reply q * DB) :=
  match q return option (Reply q * DB) with
  | BookingFindFirst w => Some (findFirst db w, db)
  | BookingFindUnique i => Some (findUnique db i, db)
  | BookingFindUniqueInc i => Some (option_map (withRelations db) (findUnique db i), db)
  | BookingCreate newId d => create db newId d
  | BookingUpdate i d => update db i d
  | UsersDeleteMany bid => Some (tt, usersDeleteMany db bid)
  | UsersCreateMany rows => unitReply (usersCreateMany db rows)
  | ServicesDeleteMany bid => Some (tt, servicesDeleteMany db bid)
  | ServicesCreateMany rows => unitReply (servicesCreateMany db rows)
  end.

Inductive Prog (A : Type) : Type :=
| Ret (a : A)
| Call (q : Query) (k : Reply q -> Prog A).

Arguments Ret {A} a.
Arguments Call {A} q k.

Fixpoint bind {A B} (p : Prog A) (f : A -> Prog B) : Prog B :=
  match p with
  | Ret a => f a
  | Call q k => Call q (fun r => bind (k r) f)
  end.

Definition await (q : Query) : Prog (Reply q) := Call q Ret.

(** Running a program alone, from [db]: the value (or [None] when a call
    threw), the final database and the calls made, in order. *)
Fixpoint run {A} (p : Prog A) (db : DB) : option A * DB * list Query :=
  match p with
  | Ret a => (Some a, db, [])
  | Call q k =>
      match exec db q with
      | Some (r, db') =>
          let '(a, db'', t) := run (k r) db' in (a, db'', q :: t)
      | None => (None, db, [q])
      end
  end.

Inductive Body :=
| ErrorJson (error : string)
| BookingJson (b : option BookingInc).

Record Response := respond { code : Z; body : Body }.

(** [try { program } catch (error) { onError }] *)
Record Route := mkRoute { program : Prog Response; onError : Response }.

Definition handle (r : Route) (db : DB) : Response * DB * list Query :=
  let '(a, db', t) := run (program r) db in
  (match a with Some res => res | None => onError r end, db', t).

(** *** Requests in flight

    Between two [await]s of a request the event loop may run another
    request: a pool of routes advances one database call at a time, the
    next call of the route a schedule names. *)
Definition stepRoute (db : DB) (r : Route) : DB * Route :=
  match program r with
  | Ret _ => (db, r)
  | Call q k =>
      match exec db q with
      | Some (a, db') => (db', {| program := k a; onError := onError r |})
      | None => (db, {| program := Ret (onError r); onError := onError r |})
      end
  end.

Fixpoint stepAt (n : nat) (db : DB) (pool : list Route) : DB * list Route :=
  match pool with
  | [] => (db, [])
  | r :: rest =>
      match n with
      | O => let '(db', r') := stepRoute db r in (db', r' :: rest)
      | S n' => let '(db', rest') := stepAt n' db rest in (db', r :: rest')
      end
  end.

Fixpoint interleave (schedule : list nat) (db : DB) (pool : list Route)
  : DB * list Route :=
  match schedule with
  | [] => (db, pool)
  | n :: s => let '(db', pool') := stepAt n db pool in interleave s db' pool'
  end.

(** A route that has answered [res]. *)
Definition answered (res : Response) (r : Route) : Route :=
  {| program := Ret res; onError := onError r |}.

(** A property of every call a program can make and of every value it can
    return. *)
Fixpoint always {A} (P : Query -> Prop) (R : A -> Prop) (p : Prog A) : Prop :=
  match p with
  | Ret a => R a
  | Call q k => P q /\ forall r, always P R (k r)
  end.

Definition isConflictQuery (q : Query) : bool :=
  match q with BookingFindFirst _ => true | _ => false end.

Definition writesBookings (q : Query) : bool :=
  match q with BookingCreate _ _ | BookingUpdate _ _ => true | _ => false end.

Definition quiet (q : Query) : Prop :=
  writesBookings q = false /\ isConflictQuery q = false.

End Handler.
Import Handler.

Notation "x <- p ;; q" := (bind p (fun x => q))
  (at level 61, p at next level, right associativity).

(* ------------------------------------------------------------------ *)
(** ** routes/bookings.ts *)

(** The validated request bodies: times are the [new Date(...)] of the
    ISO 8601 strings, an optional key that is absent is [None]. *)
Module CreateBody.

Record t := mk {
  startTime : Z;
  endTime : Z;
  userIds : list string;
  serviceIds : list string;
  notes : option string;
  status : option BookingStatus
}.

End CreateBody.

Module UpdateBody.

Record t := mk {
  startTime : option Z;
  endTime : option Z;
  userIds : option (list string);
  serviceIds : option (list string);
  notes : option string;
  status : option BookingStatus
}.

End UpdateBody.

Definition conflictResponse : Response :=
  respond 409 (ErrorJson "Time slot conflicts with existing booking").

(** [data] of the create, lines 264-279; [status = 'CONFIRMED'] is the
    default of the destructuring in line 236. *)
Definition createDataOf (req : CreateBody.t) : CreateData :=
  {| c_startTime := CreateBody.startTime req; c_endTime := CreateBody.endTime req;
     c_status := orElse (CreateBody.status req) CONFIRMED;
     c_notes := CreateBody.notes req;
     c_users := CreateBody.userIds req;
     c_services := CreateBody.serviceIds req |}.

(** [router.post('/', ...)], lines 234-313. *)
Definition postProgram (newId : string) (req : CreateBody.t) : Prog Response :=
  conflicting <- await (BookingFindFirst
                   (createConflictWhere (CreateBody.startTime req)
                                        (CreateBody.endTime req))) ;;
  match conflicting with
  | Some _ => Ret conflictResponse
  | None =>
      booking <- await (BookingCreate newId (createDataOf req)) ;;
      Ret (respond 201 (BookingJson (Some booking)))
  end.

Definition post (newId : string) (req : CreateBody.t) : Route :=
  {| program := postProgram newId req;
     onError := respond 500 (ErrorJson "Failed to create booking") |}.

(** POST / between its two calls: the conflict query has answered null,
    the insert is the next call. *)
Definition inserting (newId : string) (req : CreateBody.t) : Route :=
  {| program :=
       booking <- await (BookingCreate newId (createDataOf req)) ;;
       Ret (respond 201 (BookingJson (Some booking)));
     onError := onError (post newId req) |}.

(** [updateData] as lines 373-377 fill it. *)
Definition updateDataOf (req : UpdateBody.t) : UpdateData :=
  {| u_startTime := UpdateBody.startTime req;
     u_endTime := UpdateBody.endTime req;
     u_notes := UpdateBody.notes req;
     u_status := UpdateBody.status req |}.

(** Lines 410-466: the relations, when given, and the final read. *)
Definition putRelations (i : string) (req : UpdateBody.t) : Prog Response :=
  _ <- match UpdateBody.userIds req with
       | Some userIds =>
           _ <- await (UsersDeleteMany i) ;;
           await (UsersCreateMany (linksOf i userIds))
       | None => Ret tt
       end ;;
  _ <- match UpdateBody.serviceIds req with
       | Some serviceIds =>
           _ <- await (ServicesDeleteMany i) ;;
           await (ServicesCreateMany (linksOf i serviceIds))
       | None => Ret tt
       end ;;
  updatedBooking <- await (BookingFindUniqueInc i) ;;
  Ret (respond 200 (BookingJson updatedBooking)).

(** Lines 372-466: the update, then the relations and the final read. *)
Definition putWrite (i : string) (req : UpdateBody.t) : Prog Response :=
  _ <- await (BookingUpdate i (updateDataOf req)) ;;
  putRelations i req.

(** [router.put('/:id', ...)], lines 331-471. *)
Definition putProgram (i : string) (req : UpdateBody.t) : Prog Response :=
  existingBooking <- await (BookingFindUnique i) ;;
  match existingBooking with
  | None => Ret (respond 404 (ErrorJson "Booking not found"))
  | Some _ =>
      match UpdateBody.startTime req, UpdateBody.endTime req with
      | Some startTime, Some endTime =>
          conflicting <- await (BookingFindFirst
                           (updateConflictWhere i startTime endTime)) ;;
          match conflicting with
          | Some _ => Ret conflictResponse
          | None => putWrite i req
          end
      | _, _ => putWrite i req
      end
  end.

Definition put (i : string) (req : UpdateBody.t) : Route :=
  {| program := putProgram i req;
     onError := respond 500 (ErrorJson "Failed to update booking") |}.

(* ================================================================== *)
(** * Part II: the vocabulary of the specification *)

(** The two-inequality test of half-open intervals [s1,e1) and [s2,e2). *)
Definition overlaps (s1 e1 s2 e2 : Z) : Prop := s1 < e2 /\ s2 < e1.

Definition notExcluded (excludeId : option string) (b : Booking) : Prop :=
  match excludeId with
  | None => True
  | Some i => id b <> i
  end.

Definition validBooking (b : Booking) : Prop := startTime b < endTime b.

(** What the conflict check reads of a row. *)
Definition slot (b : Booking) : string * Z * Z := (id b, startTime b, endTime b).

Definition booked (i : string) (s e : Z) : Booking :=
  {| id := i; startTime := s; endTime := e; status := CONFIRMED; notes := None |}.

Definition slotConflicts (S E : Z) (ex : option string) (k : string * Z * Z) : bool :=
  let '(i, s, e) := k in
  match ex with
  | None => true
  | Some x => negb (String.eqb i x)
  end && sourceOverlaps S E (booked i s e).

(** The same rows with other statuses. *)
Definition setStatus (s : BookingStatus) (b : Booking) : Booking :=
  {| id := id b; startTime := startTime b; endTime := endTime b;
     status := s; notes := notes b |}.

Definition restatus (f : Booking -> BookingStatus) (db : DB) : DB :=
  {| users := users db; services := services db;
     bookings := map (fun b => setStatus (f b) b) (bookings db);
     bookingsOnUsers := bookingsOnUsers db;
     bookingsOnServices := bookingsOnServices db |}.

(** The conflict check of a creation. *)
Definition createCheck (db : DB) (req : CreateBody.t) : bool :=
  hasConflict db (CreateBody.startTime req) (CreateBody.endTime req) None.

Definition createCalls (newId : string) (req : CreateBody.t) : list Query :=
  [ BookingFindFirst (createConflictWhere (CreateBody.startTime req)
                                          (CreateBody.endTime req));
    BookingCreate newId (createDataOf req) ].

(** The 201 of a creation accepted on [db]. *)
Definition created (db : DB) (newId : string) (req : CreateBody.t) : Response :=
  respond 201 (BookingJson (Some
    (withRelations (insertBooking db newId (createDataOf req))
                   (newBooking newId (createDataOf req))))).

(** A creation persists its booking when the rows of the store after the
    request are those before it and the new row. *)
Definition persists (db : DB) (newId : string) (req : CreateBody.t) : Prop :=
  let '(_, db', _) := handle (post newId req) db in
  bookings db' = bookings db ++ [newBooking newId (createDataOf req)].

(* ------------------------------------------------------------------ *)
(** ** Stores, bookings and requests of the scenarios *)

(** Wall-clock times of 2024-01-01 (UTC), in milliseconds. *)
Definition jan1 (h m : Z) : Z := 1704067200000 + (h * 60 + m) * 60000.

Definition storeOf (bs : list Booking) : DB :=
  {| users := []; services := []; bookings := bs;
     bookingsOnUsers := []; bookingsOnServices := [] |}.

(** "b1" at 09:00-10:00, "b2" at 10:00-11:00, a long "b0" at 09:00-12:00. *)
Definition b1 : Booking := booked "b1" (jan1 9 0) (jan1 10 0).
Definition b2 : Booking := booked "b2" (jan1 10 0) (jan1 11 0).
Definition b0 : Booking := booked "b0" (jan1 9 0) (jan1 12 0).

Definition twoStore : DB := storeOf [b1; b2].

(** "b1" booked by user [u] for service [s]. *)
Definition linkedStore (u s : string) : DB :=
  {| users := ["u1"; "u2"]%string; services := ["s1"; "s2"]%string;
     bookings := [b1];
     bookingsOnUsers := [ {| bookingId := "b1"; targetId := u |} ];
     bookingsOnServices := [ {| bookingId := "b1"; targetId := s |} ] |}.

(** One user, one service, no booking. *)
Definition emptyStore : DB :=
  {| users := ["u1"]%string; services := ["s1"]%string; bookings := [];
     bookingsOnUsers := []; bookingsOnServices := [] |}.

Definition request (s e : Z) : CreateBody.t :=
  {| CreateBody.startTime := s; CreateBody.endTime := e;
     CreateBody.userIds := ["u1"]%string; CreateBody.serviceIds := ["s1"]%string;
     CreateBody.notes := None; CreateBody.status := None |}.

(** A request for a user that is not in "users". *)
Definition ghostRequest : CreateBody.t :=
  {| CreateBody.startTime := jan1 9 0; CreateBody.endTime := jan1 10 0;
     CreateBody.userIds := ["ghost"]%string; CreateBody.serviceIds := ["s1"]%string;
     CreateBody.notes := None; CreateBody.status := None |}.

(** An update that gives [startTime] and nothing else. *)
Definition moveStart (s : Z) : UpdateBody.t :=
  {| UpdateBody.startTime := Some s; UpdateBody.endTime := None;
     UpdateBody.userIds := None; UpdateBody.serviceIds := None;
     UpdateBody.notes := None; UpdateBody.status := None |}.

Definition moveBoth (s e : Z) : UpdateBody.t :=
  {| UpdateBody.startTime := Some s; UpdateBody.endTime := Some e;
     UpdateBody.userIds := None; UpdateBody.serviceIds := None;
     UpdateBody.notes := None; UpdateBody.status := None |}.

(* ================================================================== *)
(** * Part II-b: the rest of routes/bookings.ts, and what is stated of it *)

(* ------------------------------------------------------------------ *)
(** ** GET /:id *)

(** [router.get('/:id', ...)], lines 174-217. *)
Definition getProgram (i : string) : Prog Response :=
  booking <- await (BookingFindUniqueInc i) ;;
  match booking with
  | None => Ret (respond 404 (ErrorJson "Booking not found"))
  | Some b => Ret (respond 200 (BookingJson (Some b)))
  end.

Definition get (i : string) : Route :=
  {| program := getProgram i;
     onError := respond 500 (ErrorJson "Failed to fetch booking") |}.

(* ------------------------------------------------------------------ *)
(** ** The constraints of migration.sql as a property of a store *)

(** [bookings_pkey], the foreign keys of the two link tables and their
    unique indexes on (bookingId, userId) and (bookingId, serviceId). *)
Record wellFormed (db : DB) : Prop := mkWellFormed {
  wf_pkey : NoDup (bookingIds db);
  wf_users_fkey :
    Forall (fun l => In (bookingId l) (bookingIds db) /\ In (targetId l) (users db))
           (bookingsOnUsers db);
  wf_services_fkey :
    Forall (fun l => In (bookingId l) (bookingIds db) /\ In (targetId l) (services db))
           (bookingsOnServices db);
  wf_users_key : NoDup (bookingsOnUsers db);
  wf_services_key : NoDup (bookingsOnServices db)
}.

(* ------------------------------------------------------------------ *)
(** ** The outcome of PUT /:id, step by step *)

(** The conflict check of an update: made when both times are given. *)
Definition updateCheck (db : DB) (i : string) (req : UpdateBody.t) : bool :=
  match UpdateBody.startTime req, UpdateBody.endTime req with
  | Some s, Some e => hasConflict db s e (Some i)
  | _, _ => false
  end.

(** The store after the [update] call of PUT /:id. *)
Definition updated (db : DB) (i : string) (req : UpdateBody.t) : DB :=
  {| users := users db; services := services db;
     bookings := updateRows i (updateDataOf req) (bookings db);
     bookingsOnUsers := bookingsOnUsers db;
     bookingsOnServices := bookingsOnServices db |}.

(** A [deleteMany] followed by a [createMany], when the relation is given:
    whether the [createMany] went through, and the store it leaves. *)
Definition relink (given : option (list string)) (del : DB -> DB)
    (cre : DB -> list string -> option DB) (db : DB) : bool * DB :=
  match given with
  | None => (true, db)
  | Some targets =>
      match cre (del db) targets with
      | Some db' => (true, db')
      | None => (false, del db)
      end
  end.

Definition relinkUsers (i : string) (req : UpdateBody.t) (db : DB) : bool * DB :=
  relink (UpdateBody.userIds req) (fun d => usersDeleteMany d i)
         (fun d us => usersCreateMany d (linksOf i us)) db.

Definition relinkServices (i : string) (req : UpdateBody.t) (db : DB) : bool * DB :=
  relink (UpdateBody.serviceIds req) (fun d => servicesDeleteMany d i)
         (fun d ss => servicesCreateMany d (linksOf i ss)) db.

Definition updateFailed : Response :=
  respond 500 (ErrorJson "Failed to update booking").

Definition putOutcome (db : DB) (i : string) (req : UpdateBody.t) : Response * DB :=
  match findUnique db i with
  | None => (respond 404 (ErrorJson "Booking not found"), db)
  | Some _ =>
      if updateCheck db i req then (conflictResponse, db)
      else
        let '(ok1, db1) := relinkUsers i req (updated db i req) in
        if ok1 then
          let '(ok2, db2) := relinkServices i req db1 in
          if ok2 then
            (respond 200 (BookingJson (option_map (withRelations db2) (findUnique db2 i))),
             db2)
          else (updateFailed, db2)
        else (updateFailed, db1)
  end.

(** What a request can write of a booking row and of a link row. The
    columns that the database fills in on its own ([createdAt], [updatedAt],
    the keys of the link rows) are not among them. *)
Definition columns (b : Booking)
  : string * DateTime * DateTime * BookingStatus * option string :=
  (id b, startTime b, endTime b, status b, notes b).

Definition pairOf (l : Link) : string * string := (bookingId l, targetId l).

(** Two stores with the same users, services, bookings and links, as far as
    these columns go. *)
Definition sameData (db1 db2 : DB) : Prop :=
  users db1 = users db2 /\ services db1 = services db2 /\
  map columns (bookings db1) = map columns (bookings db2) /\
  map pairOf (bookingsOnUsers db1) = map pairOf (bookingsOnUsers db2) /\
  map pairOf (bookingsOnServices db1) = map pairOf (bookingsOnServices db2).

(** Two answers that carry the same booking, as far as these columns go. *)
Definition sameBooking (r1 r2 : Response) : Prop :=
  match body r1, body r2 with
  | BookingJson (Some x), BookingJson (Some y) =>
      columns (row x) = columns (row y) /\
      incUsers x = incUsers y /\ incServices x = incServices y
  | _, _ => False
  end.

(** An update body that gives no key at all. *)
Definition emptyUpdate : UpdateBody.t :=
  {| UpdateBody.startTime := None; UpdateBody.endTime := None;
     UpdateBody.userIds := None; UpdateBody.serviceIds := None;
     UpdateBody.notes := None; UpdateBody.status := None |}.

(** Calls that leave the keys of the bookings as they are, and calls that
    leave every row but those of key [i] as it is. *)
Definition keepsIds (q : Query) : Prop :=
  match q with BookingCreate _ _ => False | _ => True end.

Definition touchesOnly (i : string) (q : Query) : Prop :=
  match q with
  | BookingCreate _ _ => False
  | BookingUpdate j _ => j = i
  | _ => True
  end.

Definition otherRows (i : string) (db : DB) : list Booking :=
  filter (fun b => negb (String.eqb (id b) i)) (bookings db).

Definition readOnly (q : Query) : Prop :=
  match q with
  | BookingFindFirst _ | BookingFindUnique _ | BookingFindUniqueInc _ => True
  | _ => False
  end.

(** An update to 11:00-12:00 for the users "u1" and "ghost". *)
Definition ghostUpdate : UpdateBody.t :=
  {| UpdateBody.startTime := Some (jan1 11 0); UpdateBody.endTime := Some (jan1 12 0);
     UpdateBody.userIds := Some ["u1"; "ghost"]%string; UpdateBody.serviceIds := None;
     UpdateBody.notes := None; UpdateBody.status := None |}.

(** An update to 11:00-12:00 for the user "u2" and the service "s2". *)
Definition rebook : UpdateBody.t :=
  {| UpdateBody.startTime := Some (jan1 11 0); UpdateBody.endTime := Some (jan1 12 0);
     UpdateBody.userIds := Some ["u2"]%string; UpdateBody.serviceIds := Some ["s2"]%string;
     UpdateBody.notes := None; UpdateBody.status := Some COMPLETED |}.

(* ------------------------------------------------------------------ *)
(** ** The routes that list and delete *)

Module Full.

(** [orderBy: { startTime: 'asc' }]: rows in ascending order of startTime.
    The order of two rows of equal startTime is left to the database:
    [ties b x] says whether it puts [b] before [x]. *)
Definition Ties := Booking -> Booking -> bool.

Fixpoint insertByStart (ties : Ties) (b : Booking) (l : list Booking) : list Booking :=
  match l with
  | [] => [b]
  | x :: r =>
      if (startTime b <? startTime x) || ((startTime b =? startTime x) && ties b x)
      then b :: x :: r
      else x :: insertByStart ties b r
  end.

Definition sortByStart (ties : Ties) (l : list Booking) : list Booking :=
  fold_right (insertByStart ties) [] l.

(** [prisma.booking.findMany({ where, include, orderBy })] *)
Definition findMany (ties : Ties) (db : DB) (w : BookingWhere) : list BookingInc :=
  map (withRelations db) (sortByStart ties (filter (whereMatches db w) (bookings db))).

(** [prisma.booking.delete({ where: { id } })]: throws when no row has the
    key; the rows of both link tables go with the booking
    ([ON DELETE CASCADE]). *)
Definition deleteBooking (db : DB) (i : string) : option (Booking * DB) :=
  match findUnique db i with
  | None => None
  | Some b =>
      Some (b, {| users := users db; services := services db;
                  bookings := filter (fun x => negb (String.eqb (id x) i)) (bookings db);
                  bookingsOnUsers := dropLinks i (bookingsOnUsers db);
                  bookingsOnServices := dropLinks i (bookingsOnServices db) |})
  end.

(** The calls of all the booking routes: those of the create and update
    routes, and the two the other routes add. A [findMany] comes with the
    order in which the database is going to answer rows of equal
    startTime. *)
Inductive Query2 : Type :=
| Core (q : Query)
| BookingDelete (i : string)
| BookingFindMany (ties : Ties) (w : BookingWhere).

Definition Reply2 (q : Query2) : Type :=
  match q with
  | Core q => Reply q
  | BookingDelete _ => Booking
  | BookingFindMany _ _ => list BookingInc
  end.

Definition exec2 (db : DB) (q : Query2) : option (Reply2 q * DB) :=
  match q return option (Reply2 q * DB) with
  | Core q => exec db q
  | BookingDelete i => deleteBooking db i
  | BookingFindMany ties w => Some (findMany ties db w, db)
  end.

Inductive Prog2 (A : Type) : Type :=
| Ret2 (a : A)
| Call2 (q : Query2) (k : Reply2 q -> Prog2 A).

Arguments Ret2 {A} a.
Arguments Call2 {A} q k.

Fixpoint bind2 {A B} (p : Prog2 A) (f : A -> Prog2 B) : Prog2 B :=
  match p with
  | Ret2 a => f a
  | Call2 q k => Call2 q (fun r => bind2 (k r) f)
  end.

Definition await2 (q : Query2) : Prog2 (Reply2 q) := Call2 q Ret2.

(** A program of the create and update routes among all the calls. *)
Fixpoint lift {A B} (f : A -> B) (p : Prog A) : Prog2 B :=
  match p with
  | Ret a => Ret2 (f a)
  | Call q k => Call2 (Core q) (fun r => lift f (k r))
  end.

Fixpoint run2 {A} (p : Prog2 A) (db : DB) : option A * DB * list Query2 :=
  match p with
  | Ret2 a => (Some a, db, [])
  | Call2 q k =>
      match exec2 db q with
      | Some (r, db') =>
          let '(a, db'', t) := run2 (k r) db' in (a, db'', q :: t)
      | None => (None, db, [q])
      end
  end.

(** An entry of the calendar, lines 148-157. *)
Record CalendarEvent := mkEvent {
  ev_id : string;
  ev_title : string;
  ev_start : Z;
  ev_end : Z;
  ev_status : BookingStatus;
  ev_notes : option string;
  ev_users : list string;
  ev_services : list string
}.

Inductive Body2 :=
| Plain (b : Body)
| BookingsJson (l : list BookingInc)
| EventsJson (l : list CalendarEvent)
| MessageJson (message : string).

Record Response2 := respond2 { code2 : Z; body2 : Body2 }.

Definition plain (res : Response) : Response2 :=
  {| code2 := code res; body2 := Plain (body res) |}.

Record Route2 := mkRoute2 { program2 : Prog2 Response2; onError2 : Response2 }.

Definition handle2 (r : Route2) (db : DB) : Response2 * DB * list Query2 :=
  let '(a, db', t) := run2 (program2 r) db in
  (match a with Some res => res | None => onError2 r end, db', t).

Definition liftRoute (r : Route) : Route2 :=
  {| program2 := lift plain (program r); onError2 := plain (onError r) |}.

Definition stepRoute2 (db : DB) (r : Route2) : DB * Route2 :=
  match program2 r with
  | Ret2 _ => (db, r)
  | Call2 q k =>
      match exec2 db q with
      | Some (a, db') => (db', {| program2 := k a; onError2 := onError2 r |})
      | None => (db, {| program2 := Ret2 (onError2 r); onError2 := onError2 r |})
      end
  end.

Fixpoint stepAt2 (n : nat) (db : DB) (pool : list Route2) : DB * list Route2 :=
  match pool with
  | [] => (db, [])
  | r :: rest =>
      match n with
      | O => let '(db', r') := stepRoute2 db r in (db', r' :: rest)
      | S n' => let '(db', rest') := stepAt2 n' db rest in (db', r :: rest')
      end
  end.

Fixpoint interleave2 (schedule : list nat) (db : DB) (pool : list Route2)
  : DB * list Route2 :=
  match schedule with
  | [] => (db, pool)
  | n :: s => let '(db', pool') := stepAt2 n db pool in interleave2 s db' pool'
  end.

Definition answer (r : Route2) : option Response2 :=
  match program2 r with
  | Ret2 res => Some res
  | Call2 _ _ => None
  end.

(** *** DELETE /:id, lines 481-502 *)

Definition deleted : Response2 :=
  respond2 200 (MessageJson "Booking deleted successfully").

Definition deleteProgram (i : string) : Prog2 Response2 :=
  bind2 (await2 (Core (BookingFindUnique i))) (fun booking =>
  match booking with
  | None => Ret2 (plain (respond 404 (ErrorJson "Booking not found")))
  | Some _ =>
      bind2 (await2 (BookingDelete i)) (fun _ => Ret2 deleted)
  end).

Definition delete (i : string) : Route2 :=
  {| program2 := deleteProgram i;
     onError2 := plain (respond 500 (ErrorJson "Failed to delete booking")) |}.

(** *** GET /, lines 22-93 *)

(** The validated query string; [startDate] and [endDate] are the
    [new Date(...)] of the parameters. *)
Record ListQuery := mkListQuery {
  startDate : option Z;
  endDate : option Z;
  q_status : option BookingStatus;
  userId : option string;
  serviceId : option string
}.

(** [if (userId)]: an empty string is as good as none. *)
Definition truthy (o : option string) : option string :=
  match o with
  | Some s => if String.eqb s "" then None else Some s
  | None => None
  end.

Definition listWhereOf (q : ListQuery) : BookingWhere :=
  listWhere
    (match startDate q, endDate q with
     | Some s, Some e => Some (s, e)
     | _, _ => None
     end)
    (q_status q) (truthy (userId q)) (truthy (serviceId q)).

Definition listProgram (ties : Ties) (q : ListQuery) : Prog2 Response2 :=
  bind2 (await2 (BookingFindMany ties (listWhereOf q))) (fun bookings =>
  Ret2 (respond2 200 (BookingsJson bookings))).

Definition getAll (ties : Ties) (q : ListQuery) : Route2 :=
  {| program2 := listProgram ties q;
     onError2 := plain (respond 500 (ErrorJson "Failed to fetch bookings")) |}.

(** *** GET /calendar, lines 103-164 *)

Definition dayMs : Z := 86400000.

(** The server's clock: local time is [tz] milliseconds ahead of UTC, the
    same all year. [getDay] is 0 on Sundays; 1970-01-01 was a Thursday. *)
Definition localDay (tz t : Z) : Z := (t + tz) / dayMs.

Definition getDay (tz t : Z) : Z := (localDay tz t + 4) mod 7.

(** [startOfWeek(date, { weekStartsOn: 1 })]: back to the Monday, at 00:00
    of local time. *)
Definition startOfWeek (tz t : Z) : Z :=
  let day := getDay tz t in
  let diff := (if day <? 1 then 7 else 0) + day - 1 in
  (localDay tz t - diff) * dayMs - tz.

(** [endOfWeek(date, { weekStartsOn: 1 })]: on to the Sunday, at
    23:59:59.999 of local time. *)
Definition endOfWeek (tz t : Z) : Z :=
  let day := getDay tz t in
  let diff := (if day <? 1 then -7 else 0) + 6 - (day - 1) in
  (localDay tz t + diff) * dayMs + (dayMs - 1) - tz.

Definition weekWhere (tz date : Z) : BookingWhere :=
  W_AND [ W_startTime {| Filter.lt := None; Filter.lte := Some (endOfWeek tz date);
                         Filter.gt := None; Filter.gte := Some (startOfWeek tz date) |} ].

(** The names of the users and of the services, by key: the columns
    ["name"] of the two tables, which no booking route writes. *)
Record Directory := mkDirectory {
  userName : string -> string;
  serviceName : string -> string
}.

(** [x?.name || fallback] *)
Definition nameOr (fallback : string) (name : option string) : string :=
  match name with
  | Some s => if String.eqb s "" then fallback else s
  | None => fallback
  end.

Definition titleOf (dir : Directory) (b : BookingInc) : string :=
  (nameOr "Unknown" (option_map (userName dir) (hd_error (incUsers b)))
   ++ " - " ++
   nameOr "Unknown Service" (option_map (serviceName dir) (hd_error (incServices b))))%string.

Definition eventOf (dir : Directory) (b : BookingInc) : CalendarEvent :=
  {| ev_id := id (row b);
     ev_title := titleOf dir b;
     ev_start := startTime (row b);
     ev_end := endTime (row b);
     ev_status := status (row b);
     ev_notes := notes (row b);
     ev_users := incUsers b;
     ev_services := incServices b |}.

(** [date] is the parsed query parameter, [now] the clock when it is
    absent. *)
Definition calendarProgram (ties : Ties) (dir : Directory) (tz now : Z)
    (date : option Z) : Prog2 Response2 :=
  let d := match date with Some d => d | None => now end in
  bind2 (await2 (BookingFindMany ties (weekWhere tz d))) (fun bookings =>
  Ret2 (respond2 200 (EventsJson (map (eventOf dir) bookings)))).

Definition getCalendar (ties : Ties) (dir : Directory) (tz now : Z) (date : option Z)
  : Route2 :=
  {| program2 := calendarProgram ties dir tz now date;
     onError2 := plain (respond 500 (ErrorJson "Failed to fetch calendar bookings")) |}.

(** *** What the two listings are stated with *)

Definition byStart (a b : Booking) : Prop := startTime a <= startTime b.

(** The bookings a query string selects: by the start only, and only when
    both dates are given; by status; by a user and by a service among those
    linked to the booking, when the parameter is not empty. *)
Definition selected (db : DB) (q : ListQuery) (b : Booking) : Prop :=
  (forall s e, startDate q = Some s -> endDate q = Some e -> s <= startTime b <= e) /\
  (forall st, q_status q = Some st -> status b = st) /\
  (forall u, userId q = Some u -> u <> ""%string ->
             In u (linked (id b) (bookingsOnUsers db))) /\
  (forall s, serviceId q = Some s -> s <> ""%string ->
             In s (linked (id b) (bookingsOnServices db))).

(** A schedule of an update (route 0) and a deletion (route 1) in which
    the deletion runs between the reads of the update and its write. *)
Definition overtaken (req : UpdateBody.t) : list nat :=
  match UpdateBody.startTime req, UpdateBody.endTime req with
  | Some _, Some _ => [0; 0; 1; 1; 0]%nat
  | _, _ => [0; 1; 1; 0]%nat
  end.

End Full.

(* ------------------------------------------------------------------ *)
(** ** The caller: client/src/services/api.ts *)

Module Client.

(** [localStorage], the three keys the client keeps. *)
Record Storage := mkStorage {
  token : option string;
  refreshToken : option string;
  user : option string
}.

(** [removeAllTokens()] of services/auth.ts *)
Definition removeAllTokens (_ : Storage) : Storage :=
  {| token := None; refreshToken := None; user := None |}.

(** [setAuthToken(token)] *)
Definition setAuthToken (t : string) (s : Storage) : Storage :=
  {| token := Some t; refreshToken := refreshToken s; user := user s |}.

(** A string in a condition: null, undefined and the empty string are
    falsy. *)
Definition truthyStr (o : option string) : option string :=
  match o with
  | Some s => if String.eqb s "" then None else Some s
  | None => None
  end.

(** A member read of a parsed body, as far as apiRequest can tell values
    apart: no such member, a string, or a value of another kind, of which
    its truthiness and its [String(...)] are kept. *)
Inductive Member :=
| Undefined
| Str (s : string)
| Other (truthy : bool) (text : string).

(** A member in a condition. *)
Definition truthyMember (m : Member) : bool :=
  match m with
  | Undefined => false
  | Str s => negb (String.eqb s "")
  | Other t _ => t
  end.

(** A member in a template literal, given to [setItem] or to [new Error]. *)
Definition jsString (m : Member) : string :=
  match m with
  | Undefined => "undefined"
  | Str s => s
  | Other _ text => text
  end.

(** [member === text] *)
Definition isString (text : string) (m : Member) : bool :=
  match m with
  | Str s => String.eqb s text
  | _ => false
  end.

Definition Headers := list (string * string).

(** [{ ...headers, [name]: value }] *)
Fixpoint setHeader (name value : string) (h : Headers) : Headers :=
  match h with
  | [] => [(name, value)]
  | (n, v) :: r =>
      if String.eqb n name then (n, value) :: r
      else (n, v) :: setHeader name value r
  end.

Definition header (name : string) (h : Headers) : option string :=
  option_map snd (find (fun p => String.eqb (fst p) name) h).

(** A body handed to [fetch]: a text the caller made, or
    [JSON.stringify({ refreshToken })]. *)
Inductive Payload :=
| Text (s : string)
| RefreshBody (refreshToken : string).

Record Request := mkRequest {
  url : string;
  method : option string;
  headers : Headers;
  payload : option Payload
}.

(** [options: RequestInit] as the [api] object fills it. *)
Record Options := mkOptions {
  o_method : option string;
  o_body : option Payload;
  o_headers : option Headers
}.

(** [...(token && { Authorization: `Bearer ${token}` })] *)
Definition authorization (t : option string) : Headers :=
  match truthyStr t with
  | Some s => [("Authorization", "Bearer " ++ s)]%string
  | None => []
  end.

(** [config], lines 18-25: the [headers] of the options, when there are
    any, take the place of the merged ones. *)
Definition configOf (endpoint : string) (t : option string) (o : Options) : Request :=
  {| url := ("/api" ++ endpoint)%string;
     method := o_method o;
     headers := match o_headers o with
                | Some h => h
                | None => ("Content-Type", "application/json")%string :: authorization t
                end;
     payload := o_body o |}.

Definition refreshRequest (rt : string) : Request :=
  {| url := "/api/auth/refresh";
     method := Some "POST"%string;
     headers := [("Content-Type", "application/json")%string];
     payload := Some (RefreshBody rt) |}.

(** [newConfig], lines 57-63. *)
Definition retryOf (config : Request) (t : string) : Request :=
  {| url := url config; method := method config;
     headers := setHeader "Authorization" ("Bearer " ++ t) (headers config);
     payload := payload config |}.

(** What apiRequest throws: an [Error] with a message, the [Error] of a
    status without a message, the TypeError of a member read of [null], or
    the rejection of [fetch] or of [response.json()] passed on. *)
Inductive Err :=
| ErrorMsg (message : string)
| HttpError (status : Z)
| TypeError
| Rejection.

Definition authFailed : Err :=
  ErrorMsg "Authentication failed. Please login again.".

Section Over.

(** The parsed JSON bodies other than [null], with the two members
    apiRequest reads of them: [error] and [token]. *)
Context {V : Type} (errorOf tokenOf : V -> Member).

(** What [response.json()] resolves to: [null], of which no member can be
    read, or another value. *)
Inductive Json :=
| Null
| Value (v : V).

(** A response of [fetch]: [parsed] is what [response.json()] resolves to,
    [None] when the body is not JSON. *)
Record HttpResponse := mkHttpResponse {
  h_status : Z;
  parsed : option Json
}.

Definition ok (r : HttpResponse) : bool :=
  (200 <=? h_status r) && (h_status r <=? 299).

(** The network: what the [n]-th fetch of a call answers to a request,
    [None] when the promise is rejected. *)
Definition Net := nat -> Request -> option HttpResponse.

Inductive Result :=
| Returned (j : Json)
| Thrown (e : Err).

Record Outcome := mkOutcome {
  result : Result;
  storage : Storage;
  sent : list Request;
  redirected : bool
}.

(** Lines 81-82: [error] is the body read, or [{ error: 'Network error' }]
    when the read was rejected; [error.error] throws when the body is
    [null]. *)
Definition errorThrown (status : Z) (read : option Json) : Err :=
  match read with
  | None => ErrorMsg "Network error"
  | Some Null => TypeError
  | Some (Value error) =>
      if truthyMember (errorOf error) then ErrorMsg (jsString (errorOf error))
      else HttpError status
  end.

(** Lines 80-86: the end of apiRequest for the response in hand; [used]
    says that its body has been read already, so that reading it again is
    rejected. *)
Definition conclude (r : HttpResponse) (used : bool) : Result :=
  let read := if used then None else parsed r in
  if ok r then
    match read with
    | Some j => Returned j
    | None => Thrown Rejection
    end
  else Thrown (errorThrown (h_status r) read).

(** Lines 36-76: the [try] block, and what is in hand after it: the answer
    to the second send and the storage, or [None] when the block threw
    (a refresh answer that is [null] throws at [refreshData.token], before
    anything is stored). *)
Definition refreshAndRetry (net : Net) (st : Storage) (config : Request)
  : option (HttpResponse * Storage) * list Request :=
  match truthyStr (refreshToken st) with
  | None => (None, [])
  | Some rt =>
      match net 1%nat (refreshRequest rt) with
      | None => (None, [refreshRequest rt])
      | Some refreshResponse =>
          if ok refreshResponse then
            match parsed refreshResponse with
            | None => (None, [refreshRequest rt])
            | Some Null => (None, [refreshRequest rt])
            | Some (Value refreshData) =>
                let t := jsString (tokenOf refreshData) in
                match net 2%nat (retryOf config t) with
                | None => (None, [refreshRequest rt; retryOf config t])
                | Some response => (Some (response, setAuthToken t st),
                                    [refreshRequest rt; retryOf config t])
                end
            end
          else (None, [refreshRequest rt])
      end
  end.

(** Lines 31-33: [errorData.error === 'Invalid or expired token'], where
    [errorData] is the parsed body, or [{}] when it is not JSON; [None]
    when the body is [null] and the read of its member throws. *)
Definition tokenExpired (r : HttpResponse) : option bool :=
  match parsed r with
  | None => Some false
  | Some Null => None
  | Some (Value errorData) =>
      Some (isString "Invalid or expired token" (errorOf errorData))
  end.

(** [apiRequest(endpoint, options)], lines 10-86. *)
Definition apiRequest (net : Net) (st : Storage) (endpoint : string) (o : Options)
  : Outcome :=
  let config := configOf endpoint (token st) o in
  match net 0%nat config with
  | None => {| result := Thrown Rejection; storage := st; sent := [config];
               redirected := false |}
  | Some response =>
      if h_status response =? 403 then
        match tokenExpired response with
        | None => {| result := Thrown TypeError; storage := st;
                     sent := [config]; redirected := false |}
        | Some true =>
            match refreshAndRetry net st config with
            | (Some (response', st'), more) =>
                {| result := conclude response' false; storage := st';
                   sent := config :: more; redirected := false |}
            | (None, more) =>
                {| result := Thrown authFailed; storage := removeAllTokens st;
                   sent := config :: more; redirected := true |}
            end
        | Some false => {| result := conclude response true; storage := st;
                           sent := [config]; redirected := false |}
        end
      else {| result := conclude response false; storage := st;
              sent := [config]; redirected := false |}
  end.

(** The [api] object, lines 88-125. *)
Definition apiGet (net : Net) st endpoint : Outcome :=
  apiRequest net st endpoint {| o_method := None; o_body := None; o_headers := None |}.

Definition apiPost (net : Net) st endpoint (data : string) : Outcome :=
  apiRequest net st endpoint
    {| o_method := Some "POST"%string; o_body := Some (Text data); o_headers := None |}.

Definition apiPut (net : Net) st endpoint (data : string) : Outcome :=
  apiRequest net st endpoint
    {| o_method := Some "PUT"%string; o_body := Some (Text data); o_headers := None |}.

Definition apiDelete (net : Net) st endpoint : Outcome :=
  apiRequest net st endpoint
    {| o_method := Some "DELETE"%string; o_body := None; o_headers := None |}.

Definition apiPostFormData (net : Net) st endpoint (data : string) : Outcome :=
  apiRequest net st endpoint
    {| o_method := Some "POST"%string; o_body := Some (Text data);
       o_headers := Some (authorization (token st)) |}.

End Over.

(** *** The booking routes behind the client's network *)

(** The members [error] and [token] of the bodies the create and update
    routes answer. *)
Definition errorOfBody (b : Body) : Member :=
  match b with
  | ErrorJson e => Str e
  | BookingJson _ => Undefined
  end.

Definition tokenOfBody (_ : Body) : Member := Undefined.

(** [res.json(body)]: a booking that is null is sent as [null]. *)
Definition jsonOf (b : Body) : Json :=
  match b with
  | BookingJson None => Null
  | _ => Value b
  end.

Definition httpOf (res : Response) : HttpResponse :=
  {| h_status := code res; parsed := Some (jsonOf (body res)) |}.

(** A network on which every request is answered with [res]. *)
Definition answering (res : Response) : Net := fun _ _ => Some (httpOf res).

(** *** Bodies of the scenarios: an object with the two members *)

Record Obj := mkObj { o_error : Member; o_token : Member }.

Definition errorAnswer (status : Z) (e : string) : HttpResponse :=
  {| h_status := status;
     parsed := Some (Value {| o_error := Str e; o_token := Undefined |}) |}.

(** An answer whose body is [null]. *)
Definition nullAnswer (status : Z) : @HttpResponse Obj :=
  {| h_status := status; parsed := Some Null |}.

Definition expired : HttpResponse := errorAnswer 403 "Invalid or expired token".

Definition granted : Obj := {| o_error := Undefined; o_token := Str "new" |}.

Definition refreshed : HttpResponse :=
  {| h_status := 200; parsed := Some (Value granted) |}.

Definition loggedIn : Storage :=
  {| token := Some "old"%string; refreshToken := Some "r"%string;
     user := Some "u"%string |}.

(** A storage whose refresh token is the empty string. *)
Definition noRefresh : Storage :=
  {| token := Some "old"%string; refreshToken := Some ""%string;
     user := Some "u"%string |}.

Definition noOptions : Options :=
  {| o_method := None; o_body := None; o_headers := None |}.

(** A network that answers the expired token to every request but the
    second, the refresh, which it grants. *)
Definition alwaysExpired : Net :=
  fun n _ => match n with 1%nat => Some refreshed | _ => Some expired end.

(** A network that grants the refresh and fails on the second send. *)
Definition failingRetry : Net :=
  fun n _ => match n with
             | 0%nat => Some expired
             | 1%nat => Some refreshed
             | _ => None
             end.

(** A network that answers the refresh with 200 and the body [null]. *)
Definition nullRefresh : Net :=
  fun n _ => match n with
             | 1%nat => Some (nullAnswer 200)
             | _ => Some expired
             end.

End Client.

(* ================================================================== *)
(** * Part III: properties *)

(* ------------------------------------------------------------------ *)
(** ** The condition of the conflict query on one row *)

Section Pairwise.

Variables candStart candEnd : Z.

Lemma sourceOverlaps_true (b : Booking) :
  sourceOverlaps candStart candEnd b = true <->
  (candStart <= startTime b < candEnd) \/ (candStart < endTime b <= candEnd).
Proof.
  unfold sourceOverlaps, Filter.matches, Filter.holds; cbn.
  rewrite !andb_true_r, orb_true_iff, !andb_true_iff.
  rewrite Z.ltb_lt, Z.geb_le, Z.gtb_ltb, Z.ltb_lt, Z.leb_le.
  lia.
Qed.

Lemma sourceOverlaps_false (b : Booking) :
  sourceOverlaps candStart candEnd b = false <->
  ~ (candStart <= startTime b < candEnd) /\ ~ (candStart < endTime b <= candEnd).
Proof.
  rewrite <- not_true_iff_false, sourceOverlaps_true. tauto.
Qed.

(** What the query accepts is an overlap of half-open intervals. *)
Lemma sourceOverlaps_sound (b : Booking) :
  validBooking b ->
  sourceOverlaps candStart candEnd b = true ->
  overlaps candStart candEnd (startTime b) (endTime b).
Proof.
  unfold validBooking, overlaps. rewrite sourceOverlaps_true. lia.
Qed.

(** An overlap in which the stored booking starts or ends inside the
    candidate is accepted by the query. *)
Lemma sourceOverlaps_boundary_inside (b : Booking) :
  validBooking b ->
  overlaps candStart candEnd (startTime b) (endTime b) ->
  candStart <= startTime b \/ endTime b <= candEnd ->
  sourceOverlaps candStart candEnd b = true.
Proof.
  unfold validBooking, overlaps. rewrite sourceOverlaps_true. lia.
Qed.

(** A stored booking that starts before the candidate and ends after it is
    not accepted. *)
Lemma sourceOverlaps_enclosing (b : Booking) :
  startTime b < candStart -> candEnd < endTime b ->
  sourceOverlaps candStart candEnd b = false.
Proof.
  rewrite sourceOverlaps_false. lia.
Qed.

End Pairwise.

(** An interval of positive duration meets the condition against itself. *)
Lemma sourceOverlaps_refl (b : Booking) :
  validBooking b -> sourceOverlaps (startTime b) (endTime b) b = true.
Proof.
  unfold validBooking. rewrite sourceOverlaps_true. lia.
Qed.

(** Apart from strict containment the condition is symmetric. *)
Lemma sourceOverlaps_sym_unless_nested (a b : Booking) :
  validBooking a -> validBooking b ->
  ~ (startTime a < startTime b /\ endTime b < endTime a) ->
  ~ (startTime b < startTime a /\ endTime a < endTime b) ->
  sourceOverlaps (startTime a) (endTime a) b =
  sourceOverlaps (startTime b) (endTime b) a.
Proof.
  unfold validBooking. intros Va Vb N1 N2.
  apply eq_true_iff_eq. rewrite !sourceOverlaps_true. lia.
Qed.

(* ------------------------------------------------------------------ *)
(** ** The where objects *)

Lemma whereMatches_overlapOR db S E b :
  whereMatches db (overlapOR S E) b = sourceOverlaps S E b.
Proof.
  unfold sourceOverlaps. cbn. now rewrite orb_false_r.
Qed.

Lemma whereMatches_conflictWhere db S E ex b :
  whereMatches db (conflictWhere S E ex) b = true <->
  notExcluded ex b /\ sourceOverlaps S E b = true.
Proof.
  destruct ex as [i|]; cbn -[overlapOR].
  - rewrite whereMatches_overlapOR.
    rewrite andb_true_r, andb_true_iff, negb_true_iff.
    rewrite <- not_true_iff_false, String.eqb_eq. tauto.
  - unfold createConflictWhere. rewrite whereMatches_overlapOR. tauto.
Qed.

Lemma whereMatches_slot db S E ex b :
  whereMatches db (conflictWhere S E ex) b = slotConflicts S E ex (slot b).
Proof.
  destruct ex as [x|]; cbn -[overlapOR sourceOverlaps].
  - now rewrite whereMatches_overlapOR, andb_true_r.
  - unfold createConflictWhere. now rewrite whereMatches_overlapOR.
Qed.

(** The list route does read the status and the link tables. *)
Lemma listWhere_status db s b :
  whereMatches db (listWhere None (Some s) None None) b = status_eqb (status b) s.
Proof. cbn. apply andb_true_r. Qed.

Lemma listWhere_user db u b :
  whereMatches db (listWhere None None (Some u) None) b =
  memb u (linked (id b) (bookingsOnUsers db)).
Proof. cbn. apply andb_true_r. Qed.

(* ------------------------------------------------------------------ *)
(** ** The conflict check over a store *)

Lemma isSome_find_existsb {A} (p : A -> bool) (l : list A) :
  isSome (find p l) = existsb p l.
Proof.
  induction l as [|a l IH]; cbn; [reflexivity|].
  destruct (p a); [reflexivity|exact IH].
Qed.

Lemma conflictingBooking_Some db S E ex b :
  conflictingBooking db S E ex = Some b ->
  In b (bookings db) /\ notExcluded ex b /\ sourceOverlaps S E b = true.
Proof.
  unfold conflictingBooking, findFirst. intros H.
  apply find_some in H. destruct H as [Hin Hm].
  apply whereMatches_conflictWhere in Hm. tauto.
Qed.

Lemma hasConflict_true db S E ex :
  hasConflict db S E ex = true <->
  exists b, In b (bookings db) /\ notExcluded ex b /\ sourceOverlaps S E b = true.
Proof.
  unfold hasConflict. split.
  - destruct (conflictingBooking db S E ex) as [b|] eqn:F; [|discriminate].
    intros _. exists b. now apply conflictingBooking_Some.
  - intros (b & Hin & Hex & Hov).
    unfold conflictingBooking, findFirst.
    destruct (find _ _) eqn:F; [reflexivity|].
    pose proof (find_none _ _ F b Hin) as N.
    assert (T : whereMatches db (conflictWhere S E ex) b = true)
      by (apply whereMatches_conflictWhere; tauto).
    congruence.
Qed.

Lemma hasConflict_false db S E ex :
  hasConflict db S E ex = false <->
  forall b, In b (bookings db) -> notExcluded ex b -> sourceOverlaps S E b = false.
Proof.
  rewrite <- not_true_iff_false, hasConflict_true. split.
  - intros N b Hin Hex. apply not_true_iff_false. intros T. apply N. eauto.
  - intros A (b & Hin & Hex & T). rewrite (A b Hin Hex) in T. discriminate.
Qed.

(** A reported conflict is an overlap with a stored booking that is not the
    excluded one. *)
Lemma hasConflict_sound db S E ex :
  Forall validBooking (bookings db) ->
  hasConflict db S E ex = true ->
  exists b, In b (bookings db) /\ notExcluded ex b /\
            overlaps S E (startTime b) (endTime b).
Proof.
  intros V H. apply hasConflict_true in H. destruct H as (b & Hin & Hex & Hov).
  exists b. split; [assumption|]. split; [assumption|].
  apply sourceOverlaps_sound; [|assumption].
  rewrite Forall_forall in V. auto.
Qed.

Lemma hasConflict_empty db S E ex :
  bookings db = [] -> hasConflict db S E ex = false.
Proof.
  intros H. unfold hasConflict, conflictingBooking, findFirst. now rewrite H.
Qed.

Lemma hasConflict_slots db S E ex :
  hasConflict db S E ex = existsb (slotConflicts S E ex) (map slot (bookings db)).
Proof.
  unfold hasConflict, conflictingBooking, findFirst.
  rewrite isSome_find_existsb.
  induction (bookings db) as [|b l IH]; cbn -[conflictWhere slotConflicts slot];
    [reflexivity|].
  now rewrite whereMatches_slot, IH.
Qed.

(** The scenarios of the specification on the store holding 09:00-10:00. *)
Lemma scenario_overlapping_candidate :
  hasConflict (storeOf [b1]) (jan1 9 30) (jan1 10 30) None = true.
Proof. reflexivity. Qed.

Lemma scenario_touching_candidate :
  hasConflict (storeOf [b1]) (jan1 10 0) (jan1 11 0) None = false.
Proof. reflexivity. Qed.

(* ------------------------------------------------------------------ *)
(** ** Containment *)

(** A single stored booking lying inside the candidate is reported. *)
Lemma contained_booking_detected db b S E ex :
  bookings db = [b] -> notExcluded ex b -> validBooking b ->
  S < startTime b -> endTime b < E ->
  hasConflict db S E ex = true.
Proof.
  intros Hdb Hex V Hs He. apply hasConflict_true.
  exists b. rewrite Hdb. split; [now left|]. split; [assumption|].
  apply sourceOverlaps_true. unfold validBooking in V. lia.
Qed.

(** A single stored booking reaching beyond the candidate on both sides is
    not reported. *)
Lemma enclosing_booking_undetected db b S E ex :
  bookings db = [b] ->
  startTime b < S -> E < endTime b ->
  hasConflict db S E ex = false.
Proof.
  intros Hdb Hs He. apply hasConflict_false.
  intros b' Hin _. rewrite Hdb in Hin. destruct Hin as [<-|[]].
  now apply sourceOverlaps_enclosing.
Qed.

(** C1, at the store holding "b0" at 09:00-12:00 and the candidate
    10:00-11:00 of a creation: the stored interval is valid and satisfies
    S1 < E2 and S2 < E1 against the candidate, and the conflict check
    answers false. *)
Theorem C1_conflict_check_misses_enclosing_booking :
  Forall validBooking (bookings (storeOf [b0])) /\
  jan1 10 0 < jan1 11 0 /\
  (exists b, In b (bookings (storeOf [b0])) /\ notExcluded None b /\
             overlaps (jan1 10 0) (jan1 11 0) (startTime b) (endTime b)) /\
  hasConflict (storeOf [b0]) (jan1 10 0) (jan1 11 0) None = false.
Proof.
  split; [|split; [|split]].
  - repeat constructor.
  - reflexivity.
  - exists b0. split; [now left|]. split; [exact I|]. split; reflexivity.
  - reflexivity.
Qed.

(** C2 as stated does not hold: there is no one-booking store and candidate
    that starts before the stored booking and ends after it, both of
    positive duration, on which the conflict check answers false. *)
Lemma C2_no_miss_when_candidate_contains :
  ~ exists db b S E ex,
      bookings db = [b] /\ notExcluded ex b /\
      S < E /\ validBooking b /\
      S < startTime b /\ endTime b < E /\
      hasConflict db S E ex = false.
Proof.
  intros (db & b & S & E & ex & Hdb & Hex & _ & V & Hs & He & F).
  rewrite (contained_booking_detected db b S E ex) in F by assumption.
  discriminate.
Qed.

(** C2, amended: for some store containing exactly one interval [S2,E2) and
    some candidate [S1,E1) with S2 < S1 and E1 < E2 (the stored interval
    fully contains the candidate), both with start < end, the conflict check
    answers false: that overlap goes undetected. *)
Theorem C2_miss_when_stored_contains_candidate :
  exists db b S E,
    bookings db = [b] /\
    S < E /\ validBooking b /\
    startTime b < S /\ E < endTime b /\
    overlaps S E (startTime b) (endTime b) /\
    hasConflict db S E None = false.
Proof.
  exists (storeOf [b0]), b0, (jan1 10 0), (jan1 11 0).
  split; [reflexivity|].
  split; [reflexivity|].
  split; [reflexivity|].
  split; [reflexivity|].
  split; [reflexivity|].
  split; [split; reflexivity|].
  apply (enclosing_booking_undetected _ b0); reflexivity.
Qed.

(** C3, at A = 10:00-11:00 and B = 09:00-12:00, both of positive duration:
    with A as candidate and B stored the condition of the query is false,
    with B as candidate and A stored it is true. *)
Theorem C3_source_condition_not_symmetric :
  let A := booked "a" (jan1 10 0) (jan1 11 0) in
  let B := booked "b" (jan1 9 0) (jan1 12 0) in
  validBooking A /\ validBooking B /\
  sourceOverlaps (startTime A) (endTime A) B = false /\
  sourceOverlaps (startTime B) (endTime B) A = true.
Proof.
  cbv zeta. repeat split.
Qed.

(* ------------------------------------------------------------------ *)
(** ** Exclusion and adjacency *)

(** C4: when every stored booking that meets the condition of the conflict
    query against the candidate carries the excluded identifier, the check of
    the update path answers false. *)
Theorem C4_excluded_booking_is_no_conflict db S E (i : string) :
  (forall b, In b (bookings db) -> sourceOverlaps S E b = true -> id b = i) ->
  hasConflict db S E (Some i) = false.
Proof.
  intros Only. apply hasConflict_false.
  intros b Hin Hex. cbn in Hex.
  destruct (sourceOverlaps S E b) eqn:Hov; [|reflexivity].
  exfalso. apply Hex. now apply Only.
Qed.

(** The scenario of C4: "b1" stored at 09:00-10:00, moved to 09:15-10:15. *)
Lemma C4_witness_b1 :
  (forall b, In b (bookings (storeOf [b1])) ->
             sourceOverlaps (jan1 9 15) (jan1 10 15) b = true -> id b = "b1"%string) /\
  sourceOverlaps (jan1 9 15) (jan1 10 15) b1 = true /\
  hasConflict (storeOf [b1]) (jan1 9 15) (jan1 10 15) (Some "b1"%string) = false.
Proof.
  assert (H : forall b, In b (bookings (storeOf [b1])) ->
                sourceOverlaps (jan1 9 15) (jan1 10 15) b = true -> id b = "b1"%string).
  { intros b [<-|[]] _. reflexivity. }
  split; [exact H|]. split; [reflexivity|].
  exact (C4_excluded_booking_is_no_conflict (storeOf [b1]) (jan1 9 15) (jan1 10 15) "b1" H).
Defined.

(** The same with the two-inequality test, on a store of valid intervals. *)
Lemma exclusion_of_only_overlap db S E (i : string) :
  Forall validBooking (bookings db) ->
  (forall b, In b (bookings db) ->
             overlaps S E (startTime b) (endTime b) -> id b = i) ->
  hasConflict db S E (Some i) = false.
Proof.
  intros V Only. apply hasConflict_false.
  intros b Hin Hex. cbn in Hex.
  destruct (sourceOverlaps S E b) eqn:Hov; [|reflexivity].
  exfalso. apply Hex. apply Only; [assumption|].
  apply sourceOverlaps_sound; [|assumption].
  rewrite Forall_forall in V. auto.
Qed.

(** C5: a stored booking of positive duration that only touches the
    candidate (the candidate ends where it starts, or it ends where the
    candidate starts) is no conflict, on the create and on the update path. *)
Theorem C5_adjacent_intervals_do_not_conflict db b S E ex :
  bookings db = [b] ->
  validBooking b ->
  E = startTime b \/ endTime b = S ->
  hasConflict db S E ex = false.
Proof.
  intros Hdb V Adj. apply hasConflict_false.
  intros b' Hin _. rewrite Hdb in Hin. destruct Hin as [<-|[]].
  apply sourceOverlaps_false. unfold validBooking in V. lia.
Qed.

(** The scenario of C5: 09:00-10:00 stored, candidate 10:00-11:00. *)
Lemma C5_witness_touching :
  bookings (storeOf [b1]) = [b1] /\
  validBooking b1 /\ endTime b1 = jan1 10 0 /\
  hasConflict (storeOf [b1]) (jan1 10 0) (jan1 11 0) None = false.
Proof.
  split; [reflexivity|]. split; [reflexivity|]. split; [reflexivity|].
  apply (C5_adjacent_intervals_do_not_conflict (storeOf [b1]) b1).
  - reflexivity.
  - reflexivity.
  - right. reflexivity.
Defined.

(** A zero-length stored row at the end of the candidate is reported: the
    positive duration of the stored booking is needed. *)
Lemma touching_empty_row_conflicts :
  hasConflict (storeOf [booked "z" (jan1 10 0) (jan1 10 0)])
              (jan1 9 0) (jan1 10 0) None = true.
Proof. reflexivity. Qed.

(* ------------------------------------------------------------------ *)
(** ** The check reads the identifier and the two times of a row only *)

(** C7: two stores with the same rows of bookings, whatever users and
    services are attached to them in the link tables, give the same answer
    to the conflict check. *)
Theorem C7_conflict_check_ignores_users_and_services db1 db2 S E ex :
  bookings db1 = bookings db2 ->
  hasConflict db1 S E ex = hasConflict db2 S E ex.
Proof.
  intros H. rewrite !hasConflict_slots. now rewrite H.
Qed.

(** Two stores holding "b1" at 09:00-10:00: booked by "u1" for "s1" in the
    first, by "u2" for "s2" in the second; the candidate 09:30-10:30
    conflicts in both. *)
Lemma C7_witness_other_users :
  bookings (linkedStore "u1" "s1") = bookings (linkedStore "u2" "s2") /\
  linkedStore "u1" "s1" <> linkedStore "u2" "s2" /\
  hasConflict (linkedStore "u1" "s1") (jan1 9 30) (jan1 10 30) None = true /\
  hasConflict (linkedStore "u1" "s1") (jan1 9 30) (jan1 10 30) None =
  hasConflict (linkedStore "u2" "s2") (jan1 9 30) (jan1 10 30) None.
Proof.
  split; [reflexivity|]. split; [discriminate|]. split; [reflexivity|].
  apply (C7_conflict_check_ignores_users_and_services
           (linkedStore "u1" "s1") (linkedStore "u2" "s2")).
  reflexivity.
Defined.

(* ------------------------------------------------------------------ *)
(** ** Creation: POST / *)

(** What POST / answers, leaves behind and calls, by cases on its conflict
    query and on the database accepting the insert. *)
Lemma handle_post db newId req :
  handle (post newId req) db =
  if createCheck db req then
    (conflictResponse, db,
     [BookingFindFirst (createConflictWhere (CreateBody.startTime req)
                                            (CreateBody.endTime req))])
  else if createAccepted db newId (createDataOf req) then
    (created db newId req, insertBooking db newId (createDataOf req),
     createCalls newId req)
  else
    (respond 500 (ErrorJson "Failed to create booking"), db, createCalls newId req).
Proof.
  unfold createCheck, hasConflict, conflictingBooking, conflictWhere.
  unfold handle, post, postProgram, createCalls, created.
  cbn [program onError bind await run exec].
  destruct (findFirst db _) as [c|]; cbn [isSome]; [reflexivity|].
  cbn [bind run exec]. unfold create.
  destruct (createAccepted db newId (createDataOf req)); reflexivity.
Qed.

Lemma app_one_neq {A} (l : list A) (a : A) : l <> l ++ [a].
Proof.
  intros H. apply (f_equal (@List.length A)) in H.
  rewrite length_app in H. cbn in H.
  apply (f_equal Z.of_nat) in H. lia.
Qed.

(** C6 as stated does not hold: on the store without bookings, the request
    of a user that is not in "users" passes the conflict check, and no
    booking is persisted; the answer is 500 and the store is as before. *)
Lemma C6_unchecked_insert_can_fail :
  createCheck emptyStore ghostRequest = false /\
  handle (post "n1" ghostRequest) emptyStore =
    (respond 500 (ErrorJson "Failed to create booking"), emptyStore,
     createCalls "n1" ghostRequest) /\
  ~ (persists emptyStore "n1" ghostRequest <->
     createCheck emptyStore ghostRequest = false).
Proof.
  split; [reflexivity|]. split; [reflexivity|].
  intros [_ H]. specialize (H eq_refl). discriminate H.
Qed.

(** C6, amended: POST / persists the new booking if and only if its conflict
    check answers false and the database accepts the insert. When a
    conflicting booking is found the answer is the 409 and the store is left
    as it was, with no call but the query. When none is found the handler
    goes on to the insert of the booking with its user and service links:
    accepted, the answer is 201 and the store has the booking and the links
    added; refused, the answer is 500 and the store is left as it was. *)
Theorem C6_create_persists_iff_no_conflict_and_accepted db newId req :
  (persists db newId req <->
   createCheck db req = false /\ createAccepted db newId (createDataOf req) = true) /\
  handle (post newId req) db =
    if createCheck db req then
      (conflictResponse, db,
       [BookingFindFirst (createConflictWhere (CreateBody.startTime req)
                                              (CreateBody.endTime req))])
    else if createAccepted db newId (createDataOf req) then
      (created db newId req,
       {| users := users db; services := services db;
          bookings := bookings db ++ [newBooking newId (createDataOf req)];
          bookingsOnUsers :=
            bookingsOnUsers db ++ linksOf newId (CreateBody.userIds req);
          bookingsOnServices :=
            bookingsOnServices db ++ linksOf newId (CreateBody.serviceIds req) |},
       createCalls newId req)
    else
      (respond 500 (ErrorJson "Failed to create booking"), db, createCalls newId req).
Proof.
  split; [|apply handle_post].
  unfold persists. rewrite handle_post.
  destruct (createCheck db req).
  - split; [intros H; now apply app_one_neq in H|intros [H _]; discriminate H].
  - destruct (createAccepted db newId (createDataOf req)).
    + split; [now split|reflexivity].
    + split; [intros H; now apply app_one_neq in H|intros [_ H]; discriminate H].
Qed.

(** A creation on the empty store that the database accepts. *)
Lemma scenario_creation_persisted :
  handle (post "n1" (request (jan1 9 0) (jan1 10 0))) emptyStore =
    (created emptyStore "n1" (request (jan1 9 0) (jan1 10 0)),
     {| users := ["u1"]%string; services := ["s1"]%string;
        bookings := [booked "n1" (jan1 9 0) (jan1 10 0)];
        bookingsOnUsers := [ {| bookingId := "n1"; targetId := "u1" |} ];
        bookingsOnServices := [ {| bookingId := "n1"; targetId := "s1" |} ] |},
     createCalls "n1" (request (jan1 9 0) (jan1 10 0))).
Proof. reflexivity. Qed.

(** A creation refused for a conflict whatever users and services it names. *)
Lemma post_conflict_whatever_users db b newId req :
  In b (bookings db) ->
  sourceOverlaps (CreateBody.startTime req) (CreateBody.endTime req) b = true ->
  fst (handle (post newId req) db) = (conflictResponse, db).
Proof.
  intros Hin Hov. rewrite handle_post.
  assert (C : createCheck db req = true).
  { apply hasConflict_true. exists b. split; [assumption|]. split; [exact I|assumption]. }
  now rewrite C.
Qed.

(* ------------------------------------------------------------------ *)
(** ** Statuses *)

Lemma bookingIds_restatus f db : bookingIds (restatus f db) = bookingIds db.
Proof.
  unfold bookingIds. cbn [restatus bookings]. now rewrite map_map.
Qed.

Lemma hasConflict_restatus f db S E ex :
  hasConflict (restatus f db) S E ex = hasConflict db S E ex.
Proof.
  rewrite !hasConflict_slots. cbn [restatus bookings]. now rewrite map_map.
Qed.

Lemma createAccepted_restatus f db newId d :
  createAccepted (restatus f db) newId d = createAccepted db newId d.
Proof.
  unfold createAccepted. now rewrite bookingIds_restatus.
Qed.

(** An update that gives both times is refused when its conflict query
    finds a row: the 409 is answered after the two reads and nothing is
    written. *)
Lemma put_conflict db i req S E :
  findUnique db i <> None ->
  UpdateBody.startTime req = Some S -> UpdateBody.endTime req = Some E ->
  hasConflict db S E (Some i) = true ->
  handle (put i req) db =
    (conflictResponse, db,
     [BookingFindUnique i; BookingFindFirst (updateConflictWhere i S E)]).
Proof.
  intros Hb Hs He Hc. unfold handle, put, putProgram.
  cbn [program onError bind await run exec].
  destruct (findUnique db i) as [b0|]; [|now contradiction Hb].
  rewrite Hs, He. cbn [bind run exec].
  unfold hasConflict, conflictingBooking, conflictWhere in Hc.
  destruct (findFirst db (updateConflictWhere i S E)); [reflexivity|discriminate].
Qed.

(** C9: neither conflict check reads the status of a row. A stored booking
    that the range conditions of the query match makes both checks answer
    true whatever its status [st] is, CANCELLED, COMPLETED and NO_SHOW as
    much as CONFIRMED: the creation of such a candidate is answered with the
    409 and writes nothing, and so is the update of any other stored booking
    to these times. Giving the stored rows other statuses changes the answer
    of neither check, nor the response of any creation. *)
Theorem C9_conflict_check_ignores_status
    db (b : Booking) (st : BookingStatus) S E :
  In (setStatus st b) (bookings db) ->
  sourceOverlaps S E b = true ->
  (hasConflict db S E None = true /\
   forall newId userIds serviceIds notes status,
     fst (handle (post newId {| CreateBody.startTime := S; CreateBody.endTime := E;
                                CreateBody.userIds := userIds;
                                CreateBody.serviceIds := serviceIds;
                                CreateBody.notes := notes;
                                CreateBody.status := status |}) db)
     = (conflictResponse, db)) /\
  (forall i, i <> id b ->
     hasConflict db S E (Some i) = true /\
     (findUnique db i <> None ->
      forall userIds serviceIds notes status,
        fst (handle (put i {| UpdateBody.startTime := Some S;
                              UpdateBody.endTime := Some E;
                              UpdateBody.userIds := userIds;
                              UpdateBody.serviceIds := serviceIds;
                              UpdateBody.notes := notes;
                              UpdateBody.status := status |}) db)
        = (conflictResponse, db))) /\
  (forall (f : Booking -> BookingStatus),
     (forall ex, hasConflict (restatus f db) S E ex = hasConflict db S E ex) /\
     (forall newId req,
        fst (fst (handle (post newId req) (restatus f db))) =
        fst (fst (handle (post newId req) db)))).
Proof.
  intros Hin Hov.
  assert (Found : forall ex, notExcluded ex (setStatus st b) ->
                             hasConflict db S E ex = true).
  { intros ex Hex. apply hasConflict_true. exists (setStatus st b).
    split; [exact Hin|]. split; [exact Hex|exact Hov]. }
  split; [|split].
  - split; [now apply (Found None)|].
    intros newId userIds serviceIds notes0 status0.
    rewrite handle_post. unfold createCheck. cbn [CreateBody.startTime CreateBody.endTime].
    now rewrite (Found None I).
  - intros i Hi.
    assert (C : hasConflict db S E (Some i) = true).
    { apply (Found (Some i)). cbn [notExcluded setStatus id]. congruence. }
    split; [exact C|].
    intros Hb userIds serviceIds notes0 status0.
    pose proof (put_conflict db i
                  (UpdateBody.mk (Some S) (Some E) userIds serviceIds notes0 status0)
                  S E Hb eq_refl eq_refl C) as P.
    now rewrite P.
  - intros f. split; [intros ex; apply hasConflict_restatus|].
    intros newId req. rewrite !handle_post. unfold createCheck.
    rewrite hasConflict_restatus, createAccepted_restatus.
    destruct (hasConflict db _ _ None); [reflexivity|].
    destruct (createAccepted db newId (createDataOf req)); reflexivity.
Qed.

(** "b1" of 09:00-10:00 stored as CANCELLED, as COMPLETED and as NO_SHOW,
    next to "b2" of 10:00-11:00: the creation of 09:30-10:30 and the update
    of "b2" to 09:30-10:30 are answered with the 409 each time. *)
Lemma C9_witness_cancelled_completed_no_show :
  Forall (fun st =>
            let db := storeOf [setStatus st b1; b2] in
            In (setStatus st b1) (bookings db) /\
            sourceOverlaps (jan1 9 30) (jan1 10 30) b1 = true /\
            hasConflict db (jan1 9 30) (jan1 10 30) None = true /\
            fst (handle (post "n1" (request (jan1 9 30) (jan1 10 30))) db)
              = (conflictResponse, db) /\
            fst (handle (put "b2" (moveBoth (jan1 9 30) (jan1 10 30))) db)
              = (conflictResponse, db))
         [CANCELLED; COMPLETED; NO_SHOW; CONFIRMED].
Proof.
  assert (W : forall st,
            let db := storeOf [setStatus st b1; b2] in
            In (setStatus st b1) (bookings db) /\
            sourceOverlaps (jan1 9 30) (jan1 10 30) b1 = true /\
            hasConflict db (jan1 9 30) (jan1 10 30) None = true /\
            fst (handle (post "n1" (request (jan1 9 30) (jan1 10 30))) db)
              = (conflictResponse, db) /\
            fst (handle (put "b2" (moveBoth (jan1 9 30) (jan1 10 30))) db)
              = (conflictResponse, db)).
  { intros st db.
    destruct (C9_conflict_check_ignores_status db b1 st (jan1 9 30) (jan1 10 30)
                (or_introl eq_refl) eq_refl) as ((H1 & H2) & H3 & _).
    split; [now left|]. split; [reflexivity|]. split; [exact H1|].
    split; [exact (H2 "n1"%string ["u1"%string] ["s1"%string] None None)|].
    destruct (H3 "b2"%string) as [_ H4]; [discriminate|].
    apply (H4 ltac:(discriminate) None None None None). }
  repeat constructor; apply W.
Defined.

(* ------------------------------------------------------------------ *)
(** ** Programs: calls made and rows kept *)

Lemma always_bind {A B} P (R : A -> Prop) (R' : B -> Prop)
    (p : Prog A) (f : A -> Prog B) :
  always P R p -> (forall a, R a -> always P R' (f a)) -> always P R' (bind p f).
Proof.
  intros Hp Hf. induction p as [a|q k IH]; cbn in *.
  - now apply Hf.
  - destruct Hp as [Hq Hk]. split; [assumption|]. intros r. apply IH, Hk.
Qed.

Lemma run_always {A} P (R : A -> Prop) (p : Prog A) db :
  always P R p ->
  let '(a, _, t) := run p db in
  Forall P t /\ (forall x, a = Some x -> R x).
Proof.
  revert db. induction p as [a|q k IH]; intros db H; cbn in *.
  - split; [constructor|]. intros x [= <-]. assumption.
  - destruct H as [Hq Hk].
    destruct (exec db q) as [[r db']|].
    + specialize (IH r db' (Hk r)).
      destruct (run (k r) db') as [[a db''] t]. destruct IH as [Ht Ha].
      split; [constructor; assumption|assumption].
    + split; [repeat constructor; assumption|discriminate].
Qed.

Lemma exec_keeps_bookings db q r db' :
  writesBookings q = false -> exec db q = Some (r, db') -> bookings db' = bookings db.
Proof.
  destruct q; cbn; try discriminate; intros _ H.
  1-4,6: try (inversion H; subst; reflexivity).
  - unfold unitReply, usersCreateMany in H.
    destruct (linksAccepted _ _ _ _); inversion H; reflexivity.
  - unfold unitReply, servicesCreateMany in H.
    destruct (linksAccepted _ _ _ _); inversion H; reflexivity.
Qed.

Lemma run_keeps_bookings {A} (p : Prog A) db :
  let '(_, db', t) := run p db in
  Forall (fun q => writesBookings q = false) t -> bookings db' = bookings db.
Proof.
  revert db. induction p as [a|q k IH]; intros db; cbn.
  - reflexivity.
  - destruct (exec db q) as [[r db']|] eqn:E.
    + specialize (IH r db'). destruct (run (k r) db') as [[a db''] t].
      intros F. inversion F; subst.
      rewrite IH by assumption. eapply exec_keeps_bookings; eassumption.
    + reflexivity.
Qed.

(** A route alone in the pool, stepped once per call, ends as [handle]
    says. *)
Lemma interleave_alone (p : Prog Response) (h : Response) db :
  let '(a, db', t) := run p db in
  interleave (repeat O (List.length t)) db [mkRoute p h] =
  (db', [mkRoute (Ret (match a with Some res => res | None => h end)) h]).
Proof.
  revert db. induction p as [a|q k IH]; intros db; cbn [run].
  - reflexivity.
  - destruct (exec db q) as [[r db1]|] eqn:E.
    + specialize (IH r db1). destruct (run (k r) db1) as [[a db'] t].
      cbn [List.length repeat interleave stepAt]. unfold stepRoute.
      cbn [program onError]. rewrite E. exact IH.
    + cbn [List.length repeat interleave stepAt]. unfold stepRoute.
      cbn [program onError]. rewrite E. reflexivity.
Qed.

(* ------------------------------------------------------------------ *)
(** ** Update: PUT /:id *)

Lemma putWrite_eq i req :
  putWrite i req = Call (BookingUpdate i (updateDataOf req)) (fun _ => putRelations i req).
Proof. reflexivity. Qed.

Lemma putRelations_quiet i req :
  always quiet (fun res => code res = 200) (putRelations i req).
Proof.
  unfold putRelations.
  destruct (UpdateBody.userIds req), (UpdateBody.serviceIds req); cbn;
    repeat (split || intro); reflexivity.
Qed.

Lemma find_updateRows i d rows :
  find (fun b => String.eqb (id b) i) (updateRows i d rows) =
  option_map (applyUpdate d) (find (fun b => String.eqb (id b) i) rows).
Proof.
  induction rows as [|b rows IH]; cbn; [reflexivity|].
  destruct (String.eqb (id b) i) eqn:E; cbn.
  - now rewrite E.
  - rewrite E. exact IH.
Qed.

(** With one of the two times missing the update goes from the existence
    check to the write. *)
Lemma putProgram_one_sided i req :
  UpdateBody.startTime req = None \/ UpdateBody.endTime req = None ->
  putProgram i req =
  Call (BookingFindUnique i) (fun r =>
    match r with
    | None => Ret (respond 404 (ErrorJson "Booking not found"))
    | Some _ => putWrite i req
    end).
Proof.
  intros One. unfold putProgram; cbn [bind await]. f_equal.
  destruct One as [H|H]; rewrite H;
    [|destruct (UpdateBody.startTime req)]; reflexivity.
Qed.

(** An update of a booking that is not stored is answered 404 after the
    existence check, whatever times it gives. *)
Lemma put_missing_booking db i req :
  findUnique db i = None ->
  handle (put i req) db =
    (respond 404 (ErrorJson "Booking not found"), db, [BookingFindUnique i]).
Proof.
  intros H. unfold handle, put, putProgram.
  cbn [program onError bind await run exec]. now rewrite H.
Qed.

(** C8: an update of a stored booking that gives exactly one of startTime
    and endTime makes no conflict query, never answers 409, and leaves the
    booking with the given time in place of the old one and the other time
    as it was. *)
Theorem C8_one_sided_update_skips_conflict_check db i req b :
  findUnique db i = Some b ->
  (UpdateBody.startTime req = None /\ UpdateBody.endTime req <> None) \/
  (UpdateBody.startTime req <> None /\ UpdateBody.endTime req = None) ->
  let '(res, db', calls) := handle (put i req) db in
  Forall (fun q => isConflictQuery q = false) calls /\
  code res <> 409 /\
  exists b', findUnique db' i = Some b' /\
    startTime b' = orElse (UpdateBody.startTime req) (startTime b) /\
    endTime b' = orElse (UpdateBody.endTime req) (endTime b).
Proof.
  intros Hb One.
  unfold handle, put; cbn [program onError].
  rewrite putProgram_one_sided by tauto.
  cbn [run exec]. rewrite Hb.
  rewrite putWrite_eq. cbn [run exec]. unfold update. rewrite Hb.
  set (db1 := {| users := users db; services := services db;
                 bookings := updateRows i (updateDataOf req) (bookings db);
                 bookingsOnUsers := bookingsOnUsers db;
                 bookingsOnServices := bookingsOnServices db |}).
  pose proof (run_always quiet (fun res => code res = 200) (putRelations i req) db1
                (putRelations_quiet i req)) as Q.
  pose proof (run_keeps_bookings (putRelations i req) db1) as K.
  destruct (run (putRelations i req) db1) as [[a db'] t].
  destruct Q as [Qt Qa].
  split; [|split].
  - repeat constructor.
    eapply Forall_impl; [|exact Qt]. intros q [_ H]. exact H.
  - destruct a as [res|]; [rewrite (Qa res eq_refl)|]; cbn; discriminate.
  - exists (applyUpdate (updateDataOf req) b). split; [|split; reflexivity].
    unfold findUnique. rewrite K.
    + subst db1. cbn [bookings]. rewrite find_updateRows.
      unfold findUnique in Hb. now rewrite Hb.
    + eapply Forall_impl; [|exact Qt]. intros q [H _]. exact H.
Qed.

(** The scenario of C8: "b1" at 09:00-10:00 and "b2" at 10:00-11:00 stored;
    the update of "b2" gives the start 09:30 only and leaves "b2" at
    09:30-11:00, over "b1". *)
Lemma C8_witness_overlapping_update :
  findUnique twoStore "b2" = Some b2 /\
  (UpdateBody.startTime (moveStart (jan1 9 30)) <> None /\
   UpdateBody.endTime (moveStart (jan1 9 30)) = None) /\
  (let '(res, db', calls) := handle (put "b2" (moveStart (jan1 9 30))) twoStore in
   Forall (fun q => isConflictQuery q = false) calls /\
   code res <> 409 /\
   exists b', findUnique db' "b2" = Some b' /\
     startTime b' = jan1 9 30 /\ endTime b' = jan1 11 0) /\
  overlaps (jan1 9 30) (jan1 11 0) (startTime b1) (endTime b1).
Proof.
  split; [reflexivity|]. split; [split; [discriminate|reflexivity]|].
  split; [|split; reflexivity].
  apply (C8_one_sided_update_skips_conflict_check twoStore "b2"
           (moveStart (jan1 9 30)) b2).
  - reflexivity.
  - right. split; [discriminate|reflexivity].
Defined.

(** The same move with both times given is refused; with the start alone it
    is answered 200 and stored. *)
Lemma one_sided_update_double_books :
  fst (handle (put "b2" (moveBoth (jan1 9 30) (jan1 11 0))) twoStore) =
    (conflictResponse, twoStore) /\
  fst (handle (put "b2" (moveStart (jan1 9 30))) twoStore) =
    (respond 200 (BookingJson (Some
       {| row := booked "b2" (jan1 9 30) (jan1 11 0);
          incUsers := []; incServices := [] |})),
     storeOf [b1; booked "b2" (jan1 9 30) (jan1 11 0)]).
Proof. split; reflexivity. Qed.

(* ------------------------------------------------------------------ *)
(** ** Two creations in flight *)

Lemma stepRoute_post_check db newId req :
  stepRoute db (post newId req) =
  (db, if createCheck db req then answered conflictResponse (post newId req)
       else inserting newId req).
Proof.
  unfold createCheck, hasConflict, conflictingBooking, conflictWhere.
  unfold stepRoute. cbn [post postProgram program onError bind await exec].
  destruct (findFirst db _); reflexivity.
Qed.

Lemma stepRoute_post_insert db newId req :
  stepRoute db (inserting newId req) =
  if createAccepted db newId (createDataOf req) then
    (insertBooking db newId (createDataOf req),
     answered (created db newId req) (post newId req))
  else (db, answered (onError (post newId req)) (post newId req)).
Proof.
  unfold stepRoute. cbn [inserting program onError bind await exec].
  unfold create. destruct (createAccepted db newId (createDataOf req)); reflexivity.
Qed.

(** C10: two creations whose intervals overlap, each passing its conflict
    check on the store and each accepted by the database. Scheduled check,
    check, insert, insert, both have made their query on the unchanged store
    before the first insert, both are answered 201, and the store ends with
    both bookings. *)
Theorem C10_interleaved_creations_double_book db id1 id2 req1 req2 :
  createCheck db req1 = false ->
  createCheck db req2 = false ->
  createAccepted db id1 (createDataOf req1) = true ->
  createAccepted (insertBooking db id1 (createDataOf req1)) id2 (createDataOf req2) = true ->
  overlaps (CreateBody.startTime req1) (CreateBody.endTime req1)
           (CreateBody.startTime req2) (CreateBody.endTime req2) ->
  let pool := [post id1 req1; post id2 req2] in
  let db1 := insertBooking db id1 (createDataOf req1) in
  let db2 := insertBooking db1 id2 (createDataOf req2) in
  let n1 := newBooking id1 (createDataOf req1) in
  let n2 := newBooking id2 (createDataOf req2) in
  interleave [0; 1]%nat db pool = (db, [inserting id1 req1; inserting id2 req2]) /\
  interleave [0; 1; 0; 1]%nat db pool =
    (db2, [answered (created db id1 req1) (post id1 req1);
           answered (created db1 id2 req2) (post id2 req2)]) /\
  bookings db2 = bookings db ++ [n1; n2] /\
  overlaps (startTime n1) (endTime n1) (startTime n2) (endTime n2).
Proof.
  intros C1 C2 A1 A2 Ov. cbv zeta.
  assert (Checks : interleave [0; 1]%nat db [post id1 req1; post id2 req2] =
                   (db, [inserting id1 req1; inserting id2 req2])).
  { cbn [interleave stepAt]. rewrite !stepRoute_post_check, C1, C2. reflexivity. }
  split; [exact Checks|]. split; [|split].
  - cbn [interleave stepAt].
    rewrite !stepRoute_post_check, C1, C2.
    rewrite stepRoute_post_insert, A1.
    rewrite stepRoute_post_insert, A2. reflexivity.
  - cbn [insertBooking bookings]. now rewrite <- app_assoc.
  - exact Ov.
Qed.

(** The scenario of C10: the slot 09:00-10:00 requested twice on the store
    without bookings. *)
Lemma C10_witness_same_slot_twice :
  createCheck emptyStore (request (jan1 9 0) (jan1 10 0)) = false /\
  createAccepted emptyStore "n1" (createDataOf (request (jan1 9 0) (jan1 10 0))) = true /\
  createAccepted (insertBooking emptyStore "n1"
                    (createDataOf (request (jan1 9 0) (jan1 10 0))))
                 "n2" (createDataOf (request (jan1 9 0) (jan1 10 0))) = true /\
  overlaps (jan1 9 0) (jan1 10 0) (jan1 9 0) (jan1 10 0) /\
  map (fun r => match program r with Ret res => code res | Call _ _ => 0 end)
      (snd (interleave [0; 1; 0; 1]%nat emptyStore
              [post "n1" (request (jan1 9 0) (jan1 10 0));
               post "n2" (request (jan1 9 0) (jan1 10 0))])) = [201; 201] /\
  map slot (bookings (fst (interleave [0; 1; 0; 1]%nat emptyStore
              [post "n1" (request (jan1 9 0) (jan1 10 0));
               post "n2" (request (jan1 9 0) (jan1 10 0))]))) =
    [("n1"%string, jan1 9 0, jan1 10 0); ("n2"%string, jan1 9 0, jan1 10 0)].
Proof.
  pose proof (C10_interleaved_creations_double_book emptyStore "n1" "n2"
                (request (jan1 9 0) (jan1 10 0)) (request (jan1 9 0) (jan1 10 0))
                eq_refl eq_refl eq_refl eq_refl (conj eq_refl eq_refl)) as H.
  cbv zeta in H. destruct H as (_ & H & _ & _).
  split; [reflexivity|]. split; [reflexivity|]. split; [reflexivity|].
  split; [split; reflexivity|].
  rewrite H. split; reflexivity.
Defined.

(** One after the other, the second creation is refused when the booking of
    the first meets the condition of its conflict query. *)
Lemma serial_creations_refuse_second db id1 id2 req1 req2 :
  createCheck db req1 = false ->
  createAccepted db id1 (createDataOf req1) = true ->
  sourceOverlaps (CreateBody.startTime req2) (CreateBody.endTime req2)
                 (newBooking id1 (createDataOf req1)) = true ->
  interleave [0; 0; 1; 1]%nat db [post id1 req1; post id2 req2] =
    (insertBooking db id1 (createDataOf req1),
     [answered (created db id1 req1) (post id1 req1);
      answered conflictResponse (post id2 req2)]).
Proof.
  intros C1 A1 Ov.
  assert (C2 : createCheck (insertBooking db id1 (createDataOf req1)) req2 = true).
  { apply hasConflict_true. exists (newBooking id1 (createDataOf req1)).
    split; [|split; [exact I|exact Ov]].
    cbn [insertBooking bookings]. apply in_or_app. right. now left. }
  cbn [interleave stepAt].
  rewrite stepRoute_post_check, C1, stepRoute_post_insert, A1.
  rewrite stepRoute_post_check, C2. reflexivity.
Qed.

(* ================================================================== *)
(** * Part IV: further properties of routes/bookings.ts *)

(* ------------------------------------------------------------------ *)
(** ** The conflict check as a function of the candidate and the store *)

Lemma hasConflict_inverted db S E ex : E <= S -> hasConflict db S E ex = false.
Proof.
  intros Hle. apply hasConflict_false. intros b _ _.
  apply sourceOverlaps_false. lia.
Qed.

(** X1. A request whose endTime is at or before its startTime meets the
    condition of the conflict query against no row: both checks answer false
    on every store, POST / never answers 409 for it, and stores it whenever
    the database accepts the insert. *)
Theorem inverted_candidate_never_conflicts db newId req ex :
  CreateBody.endTime req <= CreateBody.startTime req ->
  hasConflict db (CreateBody.startTime req) (CreateBody.endTime req) ex = false /\
  code (fst (fst (handle (post newId req) db))) <> 409 /\
  (persists db newId req <-> createAccepted db newId (createDataOf req) = true).
Proof.
  intros Inv.
  split; [now apply hasConflict_inverted|].
  unfold persists. rewrite handle_post.
  unfold createCheck. rewrite (hasConflict_inverted db _ _ None Inv).
  destruct (createAccepted db newId (createDataOf req)); cbn.
  - split; [discriminate|]. split; reflexivity.
  - split; [discriminate|].
    split; [intros H; now apply app_one_neq in H|discriminate].
Qed.

(** The request 10:00-09:00: no conflict on the store holding "b1" and "b2",
    stored on the store without bookings. *)
Lemma inverted_candidate_witness :
  CreateBody.endTime (request (jan1 10 0) (jan1 9 0)) <=
  CreateBody.startTime (request (jan1 10 0) (jan1 9 0)) /\
  hasConflict twoStore (jan1 10 0) (jan1 9 0) None = false /\
  persists emptyStore "n1" (request (jan1 10 0) (jan1 9 0)).
Proof.
  assert (Inv : CreateBody.endTime (request (jan1 10 0) (jan1 9 0)) <=
                CreateBody.startTime (request (jan1 10 0) (jan1 9 0)))
    by (vm_compute; discriminate).
  split; [exact Inv|].
  destruct (inverted_candidate_never_conflicts twoStore "n1"
              (request (jan1 10 0) (jan1 9 0)) None Inv) as (H & _ & _).
  destruct (inverted_candidate_never_conflicts emptyStore "n1"
              (request (jan1 10 0) (jan1 9 0)) None Inv) as (_ & _ & P).
  split; [exact H|]. apply P. reflexivity.
Defined.

(** X2. Widening a candidate never removes a conflict: a conflict reported for
    [S,E) is reported for every [S',E') with S' <= S and E <= E'. *)
Theorem wider_candidate_keeps_conflict db S E S' E' ex :
  S' <= S -> E <= E' ->
  hasConflict db S E ex = true ->
  hasConflict db S' E' ex = true.
Proof.
  intros HS HE H. apply hasConflict_true in H. destruct H as (b & Hin & Hex & Hov).
  apply hasConflict_true. exists b. split; [assumption|]. split; [assumption|].
  apply sourceOverlaps_true. apply sourceOverlaps_true in Hov. lia.
Qed.

Lemma wider_candidate_witness :
  jan1 9 0 <= jan1 9 30 /\ jan1 10 30 <= jan1 12 0 /\
  hasConflict (storeOf [b1]) (jan1 9 30) (jan1 10 30) None = true /\
  hasConflict (storeOf [b1]) (jan1 9 0) (jan1 12 0) None = true.
Proof.
  assert (L : jan1 9 0 <= jan1 9 30) by (vm_compute; discriminate).
  assert (R : jan1 10 30 <= jan1 12 0) by (vm_compute; discriminate).
  split; [exact L|]. split; [exact R|]. split; [reflexivity|].
  apply (wider_candidate_keeps_conflict (storeOf [b1]) (jan1 9 30) (jan1 10 30));
    [exact L|exact R|reflexivity].
Defined.

Lemma hasConflict_insertBooking db newId d S E ex :
  hasConflict (insertBooking db newId d) S E ex =
  hasConflict db S E ex || slotConflicts S E ex (slot (newBooking newId d)).
Proof.
  rewrite !hasConflict_slots. cbn [insertBooking bookings].
  rewrite map_app, existsb_app. cbn [map existsb].
  now rewrite orb_false_r.
Qed.

(** X3. On the store POST / leaves, a candidate conflicts exactly when it did on
    the store before, or the request was stored and its row, not being the
    excluded one, meets the condition of the conflict query against the
    candidate. A creation removes no conflict and adds those of its own row
    only. *)
Theorem conflict_after_creation db newId req S E ex :
  hasConflict (snd (fst (handle (post newId req) db))) S E ex =
  hasConflict db S E ex ||
  (negb (createCheck db req) && createAccepted db newId (createDataOf req) &&
   slotConflicts S E ex (newId, CreateBody.startTime req, CreateBody.endTime req)).
Proof.
  rewrite handle_post.
  destruct (createCheck db req); cbn [negb andb snd fst].
  - now rewrite orb_false_r.
  - destruct (createAccepted db newId (createDataOf req)); cbn [andb snd fst].
    + apply hasConflict_insertBooking.
    + now rewrite orb_false_r.
Qed.

(** X4. What the check detects, on a store of intervals of positive duration:
    the overlaps (S1 < E2 and S2 < E1) with a stored booking, not the
    excluded one, that does not start before the candidate and end after
    it. *)
Theorem conflict_check_detects db S E ex :
  Forall validBooking (bookings db) ->
  (hasConflict db S E ex = true <->
   exists b, In b (bookings db) /\ notExcluded ex b /\
             overlaps S E (startTime b) (endTime b) /\
             ~ (startTime b < S /\ E < endTime b)).
Proof.
  intros V. rewrite hasConflict_true. rewrite Forall_forall in V.
  split; intros (b & Hin & Hex & H); exists b; (split; [assumption|]);
    (split; [assumption|]).
  - specialize (V b Hin). unfold validBooking in V.
    apply sourceOverlaps_true in H. unfold overlaps. lia.
  - apply sourceOverlaps_true. unfold overlaps in H. lia.
Qed.

Lemma conflict_check_detects_witness :
  Forall validBooking (bookings (storeOf [b0])) /\
  hasConflict (storeOf [b0]) (jan1 8 0) (jan1 10 0) None = true /\
  hasConflict (storeOf [b0]) (jan1 10 0) (jan1 11 0) None = false.
Proof.
  assert (V : Forall validBooking (bookings (storeOf [b0])))
    by (repeat constructor).
  split; [exact V|]. split; [|reflexivity].
  apply (conflict_check_detects (storeOf [b0]) (jan1 8 0) (jan1 10 0) None V).
  exists b0. split; [now left|]. split; [exact I|].
  split; [split; reflexivity|]. intros [H _]. discriminate H.
Defined.

(* ------------------------------------------------------------------ *)
(** ** PUT /:id, all its paths *)

Lemma run_bind {A B} (p : Prog A) (f : A -> Prog B) db :
  run (bind p f) db =
  let '(a, db', t) := run p db in
  match a with
  | Some x => let '(b, db'', t') := run (f x) db' in (b, db'', t ++ t')
  | None => (None, db', t)
  end.
Proof.
  revert db. induction p as [a|q k IH]; intros db; cbn [bind run].
  - destruct (run (f a) db) as [[b db''] t']. reflexivity.
  - destruct (exec db q) as [[r db']|]; [|reflexivity].
    rewrite IH. destruct (run (k r) db') as [[a db''] t].
    destruct a as [x|]; [|reflexivity].
    destruct (run (f x) db'') as [[b db3] t']. reflexivity.
Qed.

Lemma run_putRelations i req db :
  let '(a, db', _) := run (putRelations i req) db in
  let '(ok1, db1) := relinkUsers i req db in
  if ok1 then
    let '(ok2, db2) := relinkServices i req db1 in
    if ok2 then
      a = Some (respond 200 (BookingJson (option_map (withRelations db2) (findUnique db2 i))))
      /\ db' = db2
    else a = None /\ db' = db2
  else a = None /\ db' = db1.
Proof.
  unfold putRelations, relinkUsers, relinkServices, relink.
  destruct (UpdateBody.userIds req) as [us|];
    destruct (UpdateBody.serviceIds req) as [ss|];
    cbn [bind await run exec unitReply].
  - destruct (usersCreateMany (usersDeleteMany db i) (linksOf i us)) as [d1|];
      cbn [unitReply]; [|now split].
    cbn [bind await run exec].
    destruct (servicesCreateMany (servicesDeleteMany d1 i) (linksOf i ss)) as [d2|];
      cbn [unitReply]; now split.
  - destruct (usersCreateMany (usersDeleteMany db i) (linksOf i us)) as [d1|];
      cbn [unitReply]; now split.
  - destruct (servicesCreateMany (servicesDeleteMany db i) (linksOf i ss)) as [d2|];
      cbn [unitReply]; now split.
  - now split.
Qed.

Lemma run_putWrite i req db b :
  findUnique db i = Some b ->
  let '(a, db', _) := run (putWrite i req) db in
  (match a with Some res => res | None => updateFailed end, db') =
  let '(ok1, db1) := relinkUsers i req (updated db i req) in
  if ok1 then
    let '(ok2, db2) := relinkServices i req db1 in
    if ok2 then
      (respond 200 (BookingJson (option_map (withRelations db2) (findUnique db2 i))), db2)
    else (updateFailed, db2)
  else (updateFailed, db1).
Proof.
  intros Hb. rewrite putWrite_eq. cbn [run exec]. unfold update. rewrite Hb.
  fold (updated db i req).
  pose proof (run_putRelations i req (updated db i req)) as R.
  destruct (run (putRelations i req) (updated db i req)) as [[a db'] t].
  destruct (relinkUsers i req (updated db i req)) as [ok1 db1].
  destruct ok1.
  - destruct (relinkServices i req db1) as [ok2 db2].
    destruct ok2; destruct R as [-> ->]; reflexivity.
  - destruct R as [-> ->]. reflexivity.
Qed.

(** What PUT /:id answers and leaves behind. *)
Lemma handle_put db i req :
  fst (handle (put i req) db) = putOutcome db i req.
Proof.
  unfold handle, put, putProgram, putOutcome, updateCheck.
  cbn [program onError bind await run exec].
  destruct (findUnique db i) as [b|] eqn:Hb; [|reflexivity].
  fold updateFailed.
  destruct (UpdateBody.startTime req) as [s|];
    [destruct (UpdateBody.endTime req) as [e|]|].
  - cbn [bind run exec].
    unfold hasConflict, conflictingBooking, conflictWhere.
    destruct (findFirst db (updateConflictWhere i s e)) as [c|]; cbn [isSome];
      [reflexivity|].
    pose proof (run_putWrite i req db b Hb) as W.
    destruct (run (putWrite i req) db) as [[a db'] t]. cbn [fst]. exact W.
  - pose proof (run_putWrite i req db b Hb) as W.
    destruct (run (putWrite i req) db) as [[a db'] t]. cbn [fst]. exact W.
  - pose proof (run_putWrite i req db b Hb) as W.
    destruct (run (putWrite i req) db) as [[a db'] t]. cbn [fst]. exact W.
Qed.

(** *** Lists of keys and links *)

Lemma memb_In x l : memb x l = true <-> In x l.
Proof.
  unfold memb. rewrite existsb_exists. split.
  - intros (y & Hin & E). apply String.eqb_eq in E. now subst.
  - intros H. exists x. split; [assumption|apply String.eqb_refl].
Qed.

Lemma link_eqb_eq a b : link_eqb a b = true <-> a = b.
Proof.
  unfold link_eqb. rewrite andb_true_iff, !String.eqb_eq.
  destruct a, b; cbn. split; [intros [-> ->]; reflexivity|intros [= -> ->]; now split].
Qed.

Lemma linkb_In x l : linkb x l = true <-> In x l.
Proof.
  unfold linkb. rewrite existsb_exists. split.
  - intros (y & Hin & E). apply link_eqb_eq in E. now subst.
  - intros H. exists x. split; [assumption|now apply link_eqb_eq].
Qed.

Lemma linked_app i l1 l2 : linked i (l1 ++ l2) = linked i l1 ++ linked i l2.
Proof. unfold linked. now rewrite filter_app, map_app. Qed.

Lemma linked_linksOf_same i targets : linked i (linksOf i targets) = targets.
Proof.
  unfold linked, linksOf. induction targets as [|t r IH]; cbn; [reflexivity|].
  rewrite String.eqb_refl. cbn. now rewrite IH.
Qed.

Lemma linked_linksOf_other i j targets :
  j <> i -> linked j (linksOf i targets) = [].
Proof.
  intros N. unfold linked, linksOf. induction targets as [|t r IH]; cbn; [reflexivity|].
  destruct (String.eqb i j) eqn:E; [apply String.eqb_eq in E; congruence|exact IH].
Qed.

Lemma linked_dropLinks_same i l : linked i (dropLinks i l) = [].
Proof.
  unfold linked, dropLinks. induction l as [|x r IH]; cbn; [reflexivity|].
  destruct (String.eqb (bookingId x) i) eqn:E; cbn; [exact IH|].
  now rewrite E.
Qed.

Lemma linked_dropLinks_other i j l :
  j <> i -> linked j (dropLinks i l) = linked j l.
Proof.
  intros N. unfold linked, dropLinks. induction l as [|x r IH]; cbn; [reflexivity|].
  destruct (String.eqb (bookingId x) i) eqn:E; cbn.
  - apply String.eqb_eq in E.
    destruct (String.eqb (bookingId x) j) eqn:E'; [|exact IH].
    apply String.eqb_eq in E'. congruence.
  - destruct (String.eqb (bookingId x) j); cbn; now rewrite IH.
Qed.

Lemma dropLinks_app i l1 l2 : dropLinks i (l1 ++ l2) = dropLinks i l1 ++ dropLinks i l2.
Proof. unfold dropLinks. apply filter_app. Qed.

Lemma dropLinks_linksOf i targets : dropLinks i (linksOf i targets) = [].
Proof.
  unfold dropLinks, linksOf. induction targets as [|t r IH]; cbn; [reflexivity|].
  now rewrite String.eqb_refl.
Qed.

Lemma dropLinks_idem i l : dropLinks i (dropLinks i l) = dropLinks i l.
Proof.
  unfold dropLinks. induction l as [|x r IH]; cbn; [reflexivity|].
  destruct (negb (String.eqb (bookingId x) i)) eqn:E; cbn; [|exact IH].
  now rewrite E, IH.
Qed.

(** *** Rows under an update *)

Lemma map_id_updateRows i d rows : map id (updateRows i d rows) = map id rows.
Proof.
  unfold updateRows. rewrite map_map. apply map_ext.
  intros b. now destruct (String.eqb (id b) i).
Qed.

Lemma otherRows_updateRows i d rows :
  filter (fun b => negb (String.eqb (id b) i)) (updateRows i d rows) =
  filter (fun b => negb (String.eqb (id b) i)) rows.
Proof.
  unfold updateRows. induction rows as [|b r IH]; cbn; [reflexivity|].
  destruct (String.eqb (id b) i) eqn:E; cbn; rewrite E; cbn; now rewrite IH.
Qed.

Lemma updateRows_idem i d rows :
  updateRows i d (updateRows i d rows) = updateRows i d rows.
Proof.
  unfold updateRows. rewrite map_map. apply map_ext. intros b.
  destruct (String.eqb (id b) i) eqn:E; cbn; rewrite E; [|reflexivity].
  unfold applyUpdate; cbn.
  destruct (u_startTime d), (u_endTime d), (u_status d), (u_notes d); reflexivity.
Qed.

Lemma applyUpdate_nothing b : applyUpdate (updateDataOf emptyUpdate) b = b.
Proof. destruct b. reflexivity. Qed.

Lemma updateRows_nothing i rows : updateRows i (updateDataOf emptyUpdate) rows = rows.
Proof.
  unfold updateRows. rewrite <- (map_id rows) at 2. apply map_ext. intros b.
  destruct (String.eqb (id b) i); [apply applyUpdate_nothing|reflexivity].
Qed.

(** *** The relation steps *)

Lemma relinkUsers_fields i req db :
  let db' := snd (relinkUsers i req db) in
  users db' = users db /\ services db' = services db /\
  bookings db' = bookings db /\ bookingsOnServices db' = bookingsOnServices db.
Proof.
  unfold relinkUsers, relink. destruct (UpdateBody.userIds req) as [us|]; [|now cbn].
  unfold usersCreateMany. destruct (linksAccepted _ _ _ _); now cbn.
Qed.

Lemma relinkServices_fields i req db :
  let db' := snd (relinkServices i req db) in
  users db' = users db /\ services db' = services db /\
  bookings db' = bookings db /\ bookingsOnUsers db' = bookingsOnUsers db.
Proof.
  unfold relinkServices, relink. destruct (UpdateBody.serviceIds req) as [ss|]; [|now cbn].
  unfold servicesCreateMany. destruct (linksAccepted _ _ _ _); now cbn.
Qed.

(** The rows of bookings after PUT /:id: those of the store, or those of the
    store with the update applied. *)
Lemma putOutcome_bookings db i req :
  bookings (snd (putOutcome db i req)) = bookings db \/
  (findUnique db i <> None /\ updateCheck db i req = false /\
   bookings (snd (putOutcome db i req)) = updateRows i (updateDataOf req) (bookings db)).
Proof.
  unfold putOutcome. destruct (findUnique db i) as [b|]; [|now left].
  destruct (updateCheck db i req); [now left|]. right.
  split; [discriminate|]. split; [reflexivity|].
  pose proof (relinkUsers_fields i req (updated db i req)) as U.
  destruct (relinkUsers i req (updated db i req)) as [ok1 db1]. cbn [snd] in U.
  destruct U as (_ & _ & U & _).
  destruct ok1; [|exact U].
  pose proof (relinkServices_fields i req db1) as V.
  destruct (relinkServices i req db1) as [ok2 db2]. cbn [snd] in V.
  destruct V as (_ & _ & V & _).
  destruct ok2; cbn [snd]; now rewrite V, U.
Qed.

(** X5. PUT /:id neither adds nor removes a booking and changes no row but the
    one it names: the keys of the bookings and every row with another key are
    after the request as they were before, whatever the answer. *)
Theorem put_touches_one_booking db i req :
  let db' := snd (fst (handle (put i req) db)) in
  bookingIds db' = bookingIds db /\ otherRows i db' = otherRows i db.
Proof.
  cbv zeta. rewrite handle_put. unfold bookingIds, otherRows.
  destruct (putOutcome_bookings db i req) as [E|(_ & _ & E)]; rewrite E.
  - now split.
  - split; [apply map_id_updateRows|apply otherRows_updateRows].
Qed.

Lemma putOutcome_code db i req :
  let res := fst (putOutcome db i req) in
  (code res = 404 <-> findUnique db i = None) /\
  (code res = 409 <-> findUnique db i <> None /\ updateCheck db i req = true) /\
  (code res = 404 \/ code res = 409 \/ code res = 500 \/ code res = 200).
Proof.
  unfold putOutcome. destruct (findUnique db i) as [b|].
  - destruct (updateCheck db i req).
    + cbn. repeat split; try discriminate; auto.
    + destruct (relinkUsers i req (updated db i req)) as [ok1 db1].
      destruct ok1; [destruct (relinkServices i req db1) as [ok2 db2]; destruct ok2|];
        cbn; (split; [split; discriminate|]);
        (split; [split; [discriminate|intros [_ H]; discriminate H]|]); auto.
  - cbn. split; [now split|]. split; [|auto].
    split; [discriminate|intros [H _]; now contradiction H].
Qed.

(** X6. PUT /:id answers 404 exactly when no booking has the key, and 409
    exactly when one has, both times are given and the conflict query that
    leaves this booking out finds a row; in both cases the store is left as
    it was. *)
Theorem put_refusals db i req :
  let '(res, db') := fst (handle (put i req) db) in
  (code res = 404 <-> findUnique db i = None) /\
  (code res = 409 <->
     findUnique db i <> None /\
     exists s e, UpdateBody.startTime req = Some s /\ UpdateBody.endTime req = Some e /\
                 hasConflict db s e (Some i) = true) /\
  (code res = 404 \/ code res = 409 -> db' = db).
Proof.
  rewrite handle_put.
  pose proof (putOutcome_code db i req) as (C404 & C409 & _).
  assert (Same : code (fst (putOutcome db i req)) = 404 \/
                 code (fst (putOutcome db i req)) = 409 ->
                 snd (putOutcome db i req) = db).
  { rewrite C404, C409. unfold putOutcome.
    destruct (findUnique db i); [|reflexivity].
    destruct (updateCheck db i req); [reflexivity|].
    intros [H|[_ H]]; discriminate H. }
  destruct (putOutcome db i req) as [res db']. cbn [fst snd] in *.
  split; [exact C404|]. split; [|exact Same].
  rewrite C409. unfold updateCheck.
  destruct (UpdateBody.startTime req) as [s|], (UpdateBody.endTime req) as [e|].
  - split.
    + intros [N H]. split; [exact N|]. exists s, e. now repeat split.
    + intros [N (s' & e' & [= <-] & [= <-] & H)]. now split.
  - split; [intros [_ H]; discriminate H|intros [_ (s' & e' & _ & H & _)]; discriminate H].
  - split; [intros [_ H]; discriminate H|intros [_ (s' & e' & H & _)]; discriminate H].
  - split; [intros [_ H]; discriminate H|intros [_ (s' & e' & H & _)]; discriminate H].
Qed.

(** X7. An update body with no key leaves the store as it is and answers 200
    with the stored booking and its relations. *)
Theorem put_nothing_is_identity db i b :
  findUnique db i = Some b ->
  fst (handle (put i emptyUpdate) db) =
  (respond 200 (BookingJson (Some (withRelations db b))), db).
Proof.
  intros Hb. rewrite handle_put. unfold putOutcome. rewrite Hb.
  assert (U : updated db i emptyUpdate = db).
  { unfold updated. rewrite updateRows_nothing. now destruct db. }
  cbn [updateCheck emptyUpdate UpdateBody.startTime UpdateBody.endTime].
  unfold relinkUsers, relinkServices, relink.
  cbn [emptyUpdate UpdateBody.userIds UpdateBody.serviceIds].
  fold emptyUpdate. rewrite U, Hb. reflexivity.
Qed.

Lemma put_nothing_witness :
  findUnique twoStore "b2" = Some b2 /\
  fst (handle (put "b2" emptyUpdate) twoStore) =
  (respond 200 (BookingJson (Some (withRelations twoStore b2))), twoStore).
Proof.
  split; [reflexivity|].
  apply (put_nothing_is_identity twoStore "b2" b2). reflexivity.
Defined.

Lemma DB_ext (a b : DB) :
  users a = users b -> services a = services b -> bookings a = bookings b ->
  bookingsOnUsers a = bookingsOnUsers b ->
  bookingsOnServices a = bookingsOnServices b -> a = b.
Proof. destruct a, b; cbn; intros; subst; reflexivity. Qed.

Lemma findUnique_id db i b : findUnique db i = Some b -> id b = i /\ In b (bookings db).
Proof.
  unfold findUnique. intros H. apply find_some in H. destruct H as [Hin E].
  apply String.eqb_eq in E. now split.
Qed.

Lemma relinkUsers_spec i req db :
  relinkUsers i req db =
  match UpdateBody.userIds req with
  | None => (true, db)
  | Some us =>
      if linksAccepted db (users db) (dropLinks i (bookingsOnUsers db)) (linksOf i us)
      then (true, {| users := users db; services := services db;
                     bookings := bookings db;
                     bookingsOnUsers := dropLinks i (bookingsOnUsers db) ++ linksOf i us;
                     bookingsOnServices := bookingsOnServices db |})
      else (false, usersDeleteMany db i)
  end.
Proof.
  unfold relinkUsers, relink. destruct (UpdateBody.userIds req) as [us|]; [|reflexivity].
  unfold usersCreateMany.
  change (linksAccepted (usersDeleteMany db i) (users (usersDeleteMany db i))
            (bookingsOnUsers (usersDeleteMany db i)) (linksOf i us))
    with (linksAccepted db (users db) (dropLinks i (bookingsOnUsers db)) (linksOf i us)).
  destruct (linksAccepted _ _ _ _); reflexivity.
Qed.

Lemma relinkServices_spec i req db :
  relinkServices i req db =
  match UpdateBody.serviceIds req with
  | None => (true, db)
  | Some ss =>
      if linksAccepted db (services db) (dropLinks i (bookingsOnServices db)) (linksOf i ss)
      then (true, {| users := users db; services := services db;
                     bookings := bookings db;
                     bookingsOnUsers := bookingsOnUsers db;
                     bookingsOnServices := dropLinks i (bookingsOnServices db) ++ linksOf i ss |})
      else (false, servicesDeleteMany db i)
  end.
Proof.
  unfold relinkServices, relink. destruct (UpdateBody.serviceIds req) as [ss|]; [|reflexivity].
  unfold servicesCreateMany.
  change (linksAccepted (servicesDeleteMany db i) (services (servicesDeleteMany db i))
            (bookingsOnServices (servicesDeleteMany db i)) (linksOf i ss))
    with (linksAccepted db (services db) (dropLinks i (bookingsOnServices db)) (linksOf i ss)).
  destruct (linksAccepted _ _ _ _); reflexivity.
Qed.

Lemma linksAccepted_unknown_target db targets existing i us u :
  In u us -> ~ In u targets ->
  linksAccepted db targets existing (linksOf i us) = false.
Proof.
  intros Hin Hno. unfold linksAccepted.
  destruct (forallb _ (linksOf i us)) eqn:F; [|reflexivity].
  exfalso. rewrite forallb_forall in F.
  specialize (F {| bookingId := i; targetId := u |}).
  assert (I : In {| bookingId := i; targetId := u |} (linksOf i us)).
  { unfold linksOf. apply in_map_iff. exists u. now split. }
  apply F in I. cbn in I. apply andb_true_iff in I. destruct I as [_ I].
  apply memb_In in I. contradiction.
Qed.

(** X8. PUT /:id is not one transaction: when it names a user that is not in
    "users", the answer is 500, and by then the row has the new values and
    the booking has lost its users; its services are as they were. *)
Theorem put_unknown_user_half_applies db i req b us u :
  findUnique db i = Some b ->
  updateCheck db i req = false ->
  UpdateBody.userIds req = Some us ->
  In u us -> ~ In u (users db) ->
  let '(res, db') := fst (handle (put i req) db) in
  res = updateFailed /\
  findUnique db' i = Some (applyUpdate (updateDataOf req) b) /\
  linked i (bookingsOnUsers db') = [] /\
  bookingsOnServices db' = bookingsOnServices db.
Proof.
  intros Hb Hc Hus Hin Hno. rewrite handle_put. unfold putOutcome.
  rewrite Hb, Hc, relinkUsers_spec, Hus.
  rewrite (linksAccepted_unknown_target _ _ _ i us u Hin Hno).
  split; [reflexivity|]. split; [|split].
  - unfold findUnique. cbn [usersDeleteMany updated bookings].
    rewrite find_updateRows. unfold findUnique in Hb. now rewrite Hb.
  - cbn [usersDeleteMany updated bookingsOnUsers]. apply linked_dropLinks_same.
  - reflexivity.
Qed.

(** "b1" booked by "u1" for "s1", and the update [ghostUpdate]. *)
Lemma put_unknown_user_witness :
  findUnique (linkedStore "u1" "s1") "b1" = Some b1 /\
  In "ghost"%string ["u1"; "ghost"]%string /\
  ~ In "ghost"%string (users (linkedStore "u1" "s1")) /\
  fst (handle (put "b1" ghostUpdate) (linkedStore "u1" "s1")) =
    (updateFailed,
     {| users := ["u1"; "u2"]%string; services := ["s1"; "s2"]%string;
        bookings := [booked "b1" (jan1 11 0) (jan1 12 0)];
        bookingsOnUsers := [];
        bookingsOnServices := [ {| bookingId := "b1"; targetId := "s1" |} ] |}).
Proof.
  assert (N : ~ In "ghost"%string (users (linkedStore "u1" "s1"))).
  { cbn. intros [H|[H|[]]]; discriminate H. }
  split; [reflexivity|]. split; [right; now left|]. split; [exact N|].
  pose proof (put_unknown_user_half_applies (linkedStore "u1" "s1") "b1" ghostUpdate b1
                ["u1"; "ghost"]%string "ghost"%string
                eq_refl eq_refl eq_refl (or_intror (or_introl eq_refl)) N) as H.
  destruct (fst (handle (put "b1" ghostUpdate) (linkedStore "u1" "s1"))) as [res db'] eqn:E.
  destruct H as (-> & _). vm_compute in E. injection E as <-. reflexivity.
Defined.

(** The path of PUT /:id that answers 200. *)
Lemma putOutcome_200 db i req :
  code (fst (putOutcome db i req)) = 200 ->
  exists b db1 db2,
    findUnique db i = Some b /\ updateCheck db i req = false /\
    relinkUsers i req (updated db i req) = (true, db1) /\
    relinkServices i req db1 = (true, db2) /\
    putOutcome db i req =
      (respond 200 (BookingJson (option_map (withRelations db2) (findUnique db2 i))), db2).
Proof.
  unfold putOutcome. destruct (findUnique db i) as [b|]; [|discriminate].
  destruct (updateCheck db i req); [discriminate|].
  destruct (relinkUsers i req (updated db i req)) as [ok1 db1].
  destruct ok1; [|discriminate].
  destruct (relinkServices i req db1) as [ok2 db2] eqn:R2.
  destruct ok2; [|discriminate].
  intros _. exists b, db1, db2. repeat split. exact R2.
Qed.

Lemma relinkUsers_true i req db db' :
  relinkUsers i req db = (true, db') ->
  users db' = users db /\ services db' = services db /\ bookings db' = bookings db /\
  bookingsOnServices db' = bookingsOnServices db /\
  bookingsOnUsers db' =
    match UpdateBody.userIds req with
    | Some us => dropLinks i (bookingsOnUsers db) ++ linksOf i us
    | None => bookingsOnUsers db
    end.
Proof.
  rewrite relinkUsers_spec. destruct (UpdateBody.userIds req) as [us|].
  - destruct (linksAccepted _ _ _ _); [|discriminate].
    intros [= <-]. now cbn.
  - intros [= <-]. now repeat split.
Qed.

Lemma relinkServices_true i req db db' :
  relinkServices i req db = (true, db') ->
  users db' = users db /\ services db' = services db /\ bookings db' = bookings db /\
  bookingsOnUsers db' = bookingsOnUsers db /\
  bookingsOnServices db' =
    match UpdateBody.serviceIds req with
    | Some ss => dropLinks i (bookingsOnServices db) ++ linksOf i ss
    | None => bookingsOnServices db
    end.
Proof.
  rewrite relinkServices_spec. destruct (UpdateBody.serviceIds req) as [ss|].
  - destruct (linksAccepted _ _ _ _); [|discriminate].
    intros [= <-]. now cbn.
  - intros [= <-]. now repeat split.
Qed.

(** X9. An update answered 200 that names users replaces the users of the
    booking by those named, in the store and in the answer, and leaves the
    users of every other booking as they were; the same holds of the
    services. *)
Theorem put_replaces_relations db i req :
  let '(res, db') := fst (handle (put i req) db) in
  code res = 200 ->
  (forall us, UpdateBody.userIds req = Some us ->
     linked i (bookingsOnUsers db') = us /\
     (forall j, j <> i -> linked j (bookingsOnUsers db') = linked j (bookingsOnUsers db)) /\
     exists b', body res = BookingJson (Some b') /\ incUsers b' = us) /\
  (forall ss, UpdateBody.serviceIds req = Some ss ->
     linked i (bookingsOnServices db') = ss /\
     (forall j, j <> i ->
        linked j (bookingsOnServices db') = linked j (bookingsOnServices db)) /\
     exists b', body res = BookingJson (Some b') /\ incServices b' = ss).
Proof.
  rewrite handle_put.
  destruct (putOutcome db i req) as [res db'] eqn:O. intros C.
  assert (C' : code (fst (putOutcome db i req)) = 200) by now rewrite O.
  apply putOutcome_200 in C'.
  destruct C' as (b & db1 & db2 & Hb & _ & R1 & R2 & O').
  rewrite O in O'. injection O' as -> ->.
  apply relinkUsers_true in R1. destruct R1 as (_ & _ & B1 & S1 & U1).
  apply relinkServices_true in R2. destruct R2 as (_ & _ & B2 & U2 & S2).
  assert (F : findUnique db2 i = Some (applyUpdate (updateDataOf req) b)).
  { unfold findUnique. rewrite B2, B1. cbn [updated bookings].
    rewrite find_updateRows. unfold findUnique in Hb. now rewrite Hb. }
  assert (I : id (applyUpdate (updateDataOf req) b) = i)
    by (apply findUnique_id in Hb; apply Hb).
  split.
  - intros us Hus. rewrite Hus in U1. rewrite U2, U1. cbn [updated bookingsOnUsers].
    split; [|split].
    + now rewrite linked_app, linked_dropLinks_same, linked_linksOf_same.
    + intros j N.
      now rewrite linked_app, linked_dropLinks_other, linked_linksOf_other, app_nil_r.
    + rewrite F. cbn [option_map body]. eexists. split; [reflexivity|].
      cbn [withRelations incUsers]. rewrite I, U2, U1. cbn [updated bookingsOnUsers].
      now rewrite linked_app, linked_dropLinks_same, linked_linksOf_same.
  - intros ss Hss. rewrite Hss in S2. rewrite S2, S1. cbn [updated bookingsOnServices].
    split; [|split].
    + now rewrite linked_app, linked_dropLinks_same, linked_linksOf_same.
    + intros j N.
      now rewrite linked_app, linked_dropLinks_other, linked_linksOf_other, app_nil_r.
    + rewrite F. cbn [option_map body]. eexists. split; [reflexivity|].
      cbn [withRelations incServices]. rewrite I, S2, S1.
      cbn [updated bookingsOnServices].
      now rewrite linked_app, linked_dropLinks_same, linked_linksOf_same.
Qed.

Lemma put_replaces_witness :
  code (fst (fst (handle (put "b1" rebook) (linkedStore "u1" "s1")))) = 200 /\
  linked "b1" (bookingsOnUsers (snd (fst (handle (put "b1" rebook) (linkedStore "u1" "s1")))))
    = ["u2"]%string /\
  linked "b1" (bookingsOnServices (snd (fst (handle (put "b1" rebook) (linkedStore "u1" "s1")))))
    = ["s2"]%string.
Proof.
  pose proof (put_replaces_relations (linkedStore "u1" "s1") "b1" rebook) as H.
  destruct (fst (handle (put "b1" rebook) (linkedStore "u1" "s1"))) as [res db'] eqn:E.
  assert (C : code res = 200).
  { vm_compute in E. injection E as <- _. reflexivity. }
  cbn [fst snd]. split; [exact C|].
  destruct (H C) as [Hu Hs].
  split; [apply (Hu ["u2"]%string eq_refl)|apply (Hs ["s2"]%string eq_refl)].
Defined.

(** The check of an update reads the rows of the other bookings only. *)
Lemma hasConflict_excluding db S E i :
  hasConflict db S E (Some i) = existsb (sourceOverlaps S E) (otherRows i db).
Proof.
  unfold hasConflict, conflictingBooking, findFirst, otherRows.
  rewrite isSome_find_existsb.
  induction (bookings db) as [|b l IH]; [reflexivity|].
  cbn [existsb filter]. rewrite IH.
  cbn -[overlapOR]. rewrite whereMatches_overlapOR, andb_true_r.
  destruct (String.eqb (id b) i); cbn; reflexivity.
Qed.

Lemma updateCheck_otherRows db db' i req :
  otherRows i db' = otherRows i db ->
  updateCheck db' i req = updateCheck db i req.
Proof.
  intros H. unfold updateCheck.
  destruct (UpdateBody.startTime req), (UpdateBody.endTime req); try reflexivity.
  now rewrite !hasConflict_excluding, H.
Qed.

(** X10. An update answered 200 can be sent again: on the store it left, the
    same request is answered 200 again, with the same booking (key, times,
    status, notes, users and services), and the store keeps its users,
    services, booking rows and links. The statement is about the columns a
    request writes; [updatedAt] and the keys and [createdAt] of the link
    rows, which the database sets anew on each update, are outside it. *)
Theorem put_replay db i req :
  let '(res, db') := fst (handle (put i req) db) in
  code res = 200 ->
  let '(res2, db2) := fst (handle (put i req) db') in
  code res2 = 200 /\ sameBooking res2 res /\ sameData db2 db'.
Proof.
  rewrite handle_put.
  destruct (putOutcome db i req) as [res db'] eqn:O. intros C.
  assert (C' : code (fst (putOutcome db i req)) = 200) by now rewrite O.
  apply putOutcome_200 in C'.
  destruct C' as (b & db1 & db2 & Hb & Hc & R1 & R2 & O').
  rewrite O in O'. injection O' as -> ->.
  pose proof R1 as R1'. pose proof R2 as R2'.
  apply relinkUsers_true in R1'. destruct R1' as (Us1 & Ss1 & B1 & S1 & U1).
  apply relinkServices_true in R2'. destruct R2' as (Us2 & Ss2 & B2 & U2 & S2).
  cbn [updated users services bookings bookingsOnUsers bookingsOnServices] in *.
  assert (Rows : bookings db2 = updateRows i (updateDataOf req) (bookings db))
    by now rewrite B2, B1.
  assert (F : findUnique db2 i = Some (applyUpdate (updateDataOf req) b)).
  { unfold findUnique. rewrite Rows, find_updateRows.
    unfold findUnique in Hb. now rewrite Hb. }
  assert (Up : updated db2 i req = db2).
  { apply DB_ext; cbn [updated users services bookings bookingsOnUsers bookingsOnServices];
      try reflexivity.
    now rewrite Rows, updateRows_idem. }
  assert (Ru : relinkUsers i req db2 = (true, db2)).
  { rewrite relinkUsers_spec. rewrite relinkUsers_spec in R1.
    cbn [updated users services bookings bookingsOnUsers bookingsOnServices] in R1.
    destruct (UpdateBody.userIds req) as [us|]; [|reflexivity].
    assert (D : dropLinks i (bookingsOnUsers db2) = dropLinks i (bookingsOnUsers db)).
    { rewrite U2, U1, dropLinks_app, dropLinks_idem, dropLinks_linksOf. apply app_nil_r. }
    rewrite D, Us2, Us1.
    unfold linksAccepted, bookingIds in *. rewrite Rows.
    change (map id (bookings (updated db i req)))
      with (map id (updateRows i (updateDataOf req) (bookings db))) in R1.
    destruct (forallb _ _ && _ && _); [|discriminate].
    f_equal.
    apply DB_ext; cbn [users services bookings bookingsOnUsers bookingsOnServices];
      congruence. }
  assert (Rs : relinkServices i req db2 = (true, db2)).
  { rewrite relinkServices_spec. rewrite relinkServices_spec in R2.
    destruct (UpdateBody.serviceIds req) as [ss|]; [|reflexivity].
    assert (D : dropLinks i (bookingsOnServices db2) = dropLinks i (bookingsOnServices db1)).
    { rewrite S2, dropLinks_app, dropLinks_idem, dropLinks_linksOf. apply app_nil_r. }
    rewrite D, Ss2.
    unfold linksAccepted, bookingIds in *. rewrite B2.
    destruct (forallb _ _ && _ && _); [|discriminate].
    f_equal.
    apply DB_ext; cbn [users services bookings bookingsOnUsers bookingsOnServices];
      congruence. }
  assert (Ck : updateCheck db2 i req = false).
  { rewrite <- Hc. apply updateCheck_otherRows. unfold otherRows.
    rewrite Rows. apply otherRows_updateRows. }
  rewrite handle_put. unfold putOutcome at 1.
  rewrite F, Ck, Up, Ru, Rs, F.
  split; [reflexivity|]. split; [|now repeat split].
  unfold sameBooking. cbn [body option_map]. now repeat split.
Qed.

(** "b1", booked by "u1" for "s1", is moved to 11:00-12:00 and rebooked by
    "u2" for "s2", twice. *)
Lemma put_replay_witness :
  let first := fst (handle (put "b1" rebook) (linkedStore "u1" "s1")) in
  let second := fst (handle (put "b1" rebook) (snd first)) in
  code (fst first) = 200 /\ code (fst second) = 200 /\
  sameBooking (fst second) (fst first) /\ sameData (snd second) (snd first).
Proof.
  cbv zeta.
  pose proof (put_replay (linkedStore "u1" "s1") "b1" rebook) as H.
  destruct (fst (handle (put "b1" rebook) (linkedStore "u1" "s1"))) as [res db'] eqn:E.
  assert (C : code res = 200).
  { vm_compute in E. injection E as <- _. reflexivity. }
  specialize (H C). cbn [fst snd].
  destruct (fst (handle (put "b1" rebook) db')) as [res2 db2].
  cbn [fst snd]. split; [exact C|exact H].
Defined.

(* ------------------------------------------------------------------ *)
(** ** Stores that meet the constraints of the schema *)

Lemma wellFormed_emptyStore : wellFormed emptyStore.
Proof. constructor; cbn; constructor. Qed.

(* ------------------------------------------------------------------ *)
(** ** GET /:id and what the writes answer *)

Lemma handle_get db i :
  fst (handle (get i) db) =
  (match findUnique db i with
   | Some b => respond 200 (BookingJson (Some (withRelations db b)))
   | None => respond 404 (ErrorJson "Booking not found")
   end, db).
Proof.
  unfold handle, get, getProgram. cbn [program onError bind await run exec].
  destruct (findUnique db i); reflexivity.
Qed.

Lemma find_app_fresh {A} (p : A -> bool) l x :
  existsb p l = false -> find p (l ++ [x]) = if p x then Some x else None.
Proof.
  induction l as [|a l IH]; cbn; [reflexivity|].
  destruct (p a); [discriminate|exact IH].
Qed.

Lemma no_links_of_fresh_key P newId ids (links : list Link) :
  Forall (fun l => In (bookingId l) ids /\ P l) links ->
  ~ In newId ids -> linked newId links = [].
Proof.
  intros F N. unfold linked. induction F as [|l r [I _] _ IH]; cbn; [reflexivity|].
  destruct (String.eqb (bookingId l) newId) eqn:E; [|exact IH].
  apply String.eqb_eq in E. congruence.
Qed.

Lemma existsb_memb_ids newId rows :
  existsb (fun b => String.eqb (id b) newId) rows = memb newId (map id rows).
Proof.
  unfold memb. induction rows as [|b r IH]; cbn; [reflexivity|].
  now rewrite IH, String.eqb_sym.
Qed.

(** X11. On a store that meets the constraints, a creation that is accepted
    answers 201 with the new row, the users and the services of the request,
    and GET /:id for the new key then answers 200 with the same booking. *)
Theorem created_booking_reads_back db newId req :
  wellFormed db ->
  createCheck db req = false ->
  createAccepted db newId (createDataOf req) = true ->
  let '(res, db') := fst (handle (post newId req) db) in
  res = respond 201 (BookingJson (Some
          {| row := newBooking newId (createDataOf req);
             incUsers := CreateBody.userIds req;
             incServices := CreateBody.serviceIds req |})) /\
  fst (handle (get newId) db') = (respond 200 (body res), db').
Proof.
  intros [P Fu Fs Ku Ks] C A. rewrite handle_post, C, A. cbn [fst].
  assert (Fresh : ~ In newId (bookingIds db)).
  { unfold createAccepted in A. rewrite !andb_true_iff, negb_true_iff in A.
    intros I. apply memb_In in I. destruct A as [[[[[[A _] _] _] _] _] _]. congruence. }
  assert (R : withRelations (insertBooking db newId (createDataOf req))
                            (newBooking newId (createDataOf req)) =
              {| row := newBooking newId (createDataOf req);
                 incUsers := CreateBody.userIds req;
                 incServices := CreateBody.serviceIds req |}).
  { unfold withRelations.
    cbn [insertBooking bookingsOnUsers bookingsOnServices newBooking id
         createDataOf c_users c_services].
    rewrite !linked_app, !linked_linksOf_same.
    rewrite (no_links_of_fresh_key _ newId _ _ Fu Fresh).
    rewrite (no_links_of_fresh_key _ newId _ _ Fs Fresh). reflexivity. }
  unfold created. rewrite R. split; [reflexivity|].
  rewrite handle_get. unfold findUnique. cbn [insertBooking bookings].
  rewrite find_app_fresh.
  - cbn [newBooking id]. rewrite String.eqb_refl.
    fold (newBooking newId (createDataOf req)).
    fold (insertBooking db newId (createDataOf req)). now rewrite R.
  - rewrite existsb_memb_ids. apply not_true_iff_false. intros M.
    apply memb_In in M. now apply Fresh.
Qed.

Lemma created_reads_back_witness :
  wellFormed emptyStore /\
  fst (handle (get "n1")
         (snd (fst (handle (post "n1" (request (jan1 9 0) (jan1 10 0))) emptyStore)))) =
  (respond 200 (BookingJson (Some
     {| row := booked "n1" (jan1 9 0) (jan1 10 0);
        incUsers := ["u1"]%string; incServices := ["s1"]%string |})),
   snd (fst (handle (post "n1" (request (jan1 9 0) (jan1 10 0))) emptyStore))).
Proof.
  split; [exact wellFormed_emptyStore|].
  pose proof (created_booking_reads_back emptyStore "n1" (request (jan1 9 0) (jan1 10 0))
                wellFormed_emptyStore eq_refl eq_refl) as H.
  destruct (fst (handle (post "n1" (request (jan1 9 0) (jan1 10 0))) emptyStore))
    as [res db'].
  destruct H as [-> H]. exact H.
Defined.

(** X12. What an update answers with 200 is what GET /:id reads afterwards. *)
Theorem updated_booking_reads_back db i req :
  let '(res, db') := fst (handle (put i req) db) in
  code res = 200 ->
  fst (handle (get i) db') = (res, db').
Proof.
  rewrite handle_put.
  destruct (putOutcome db i req) as [res db'] eqn:O. intros C.
  assert (C' : code (fst (putOutcome db i req)) = 200) by now rewrite O.
  apply putOutcome_200 in C'.
  destruct C' as (b & db1 & db2 & Hb & _ & R1 & R2 & O').
  rewrite O in O'. injection O' as -> ->.
  apply relinkUsers_true in R1. destruct R1 as (_ & _ & B1 & _).
  apply relinkServices_true in R2. destruct R2 as (_ & _ & B2 & _).
  assert (F : findUnique db2 i = Some (applyUpdate (updateDataOf req) b)).
  { unfold findUnique. rewrite B2, B1. cbn [updated bookings].
    rewrite find_updateRows. unfold findUnique in Hb. now rewrite Hb. }
  rewrite handle_get, F. reflexivity.
Qed.

Lemma updated_reads_back_witness :
  code (fst (fst (handle (put "b1" rebook) (linkedStore "u1" "s1")))) = 200 /\
  fst (handle (get "b1") (snd (fst (handle (put "b1" rebook) (linkedStore "u1" "s1"))))) =
  fst (handle (put "b1" rebook) (linkedStore "u1" "s1")).
Proof.
  pose proof (updated_booking_reads_back (linkedStore "u1" "s1") "b1" rebook) as H.
  destruct (fst (handle (put "b1" rebook) (linkedStore "u1" "s1"))) as [res db'] eqn:E.
  assert (C : code res = 200).
  { vm_compute in E. injection E as <- _. reflexivity. }
  cbn [fst snd]. split; [exact C|exact (H C)].
Defined.

(* ================================================================== *)
(** * Part V: the routes that delete and list *)

From Stdlib Require Import Permutation Sorted.
Import Full.

Lemma run2_lift {A B} (f : A -> B) (p : Prog A) db :
  run2 (lift f p) db =
  let '(a, db', t) := run p db in (option_map f a, db', map Core t).
Proof.
  revert db. induction p as [a|q k IH]; intros db; cbn [lift run2 run exec2].
  - reflexivity.
  - destruct (exec db q) as [[r db']|]; [|reflexivity].
    rewrite IH. destruct (run (k r) db') as [[a db''] t]. reflexivity.
Qed.

(** A create or update route among all the calls answers and leaves what it
    does on its own. *)
Lemma handle2_liftRoute r db :
  handle2 (liftRoute r) db =
  let '(res, db', t) := handle r db in (plain res, db', map Core t).
Proof.
  unfold handle2, handle, liftRoute. cbn [program2 onError2].
  rewrite run2_lift. destruct (run (program r) db) as [[a db'] t].
  destruct a; reflexivity.
Qed.

(* ------------------------------------------------------------------ *)
(** ** DELETE /:id *)

Lemma handle2_delete db i :
  fst (handle2 (delete i) db) =
  match findUnique db i with
  | None => (plain (respond 404 (ErrorJson "Booking not found")), db)
  | Some _ =>
      (deleted,
       {| users := users db; services := services db;
          bookings := otherRows i db;
          bookingsOnUsers := dropLinks i (bookingsOnUsers db);
          bookingsOnServices := dropLinks i (bookingsOnServices db) |})
  end.
Proof.
  unfold handle2, delete, deleteProgram.
  cbn [program2 onError2 bind2 await2 run2 exec2 exec].
  destruct (findUnique db i) as [b|] eqn:F; [|reflexivity].
  cbn [bind2 run2 exec2]. unfold deleteBooking. rewrite F. reflexivity.
Qed.

Lemma find_otherRows i rows :
  find (fun b => String.eqb (id b) i)
       (filter (fun b => negb (String.eqb (id b) i)) rows) = None.
Proof.
  induction rows as [|b r IH]; cbn; [reflexivity|].
  destruct (String.eqb (id b) i) eqn:E; cbn; [exact IH|]. now rewrite E.
Qed.

Lemma otherRows_absent i db :
  findUnique db i = None -> otherRows i db = bookings db.
Proof.
  unfold findUnique, otherRows. induction (bookings db) as [|b r IH]; cbn; [reflexivity|].
  destruct (String.eqb (id b) i); [discriminate|]. intros H. cbn. now rewrite IH.
Qed.

(** X13. DELETE /:id of a key that no booking has answers 404 and leaves the
    store as it is. Of a stored booking it answers 200; the booking is then
    no longer found, GET /:id answers 404 for its key, it has no users and no
    services left in the link tables, and every other booking has its row,
    its users and its services as before. *)
Theorem delete_removes_one_booking db i :
  let '(res, db') := fst (handle2 (delete i) db) in
  (findUnique db i = None -> code2 res = 404 /\ db' = db) /\
  (findUnique db i <> None ->
     res = deleted /\
     findUnique db' i = None /\
     code (fst (fst (handle (get i) db'))) = 404 /\
     bookings db' = otherRows i db /\
     linked i (bookingsOnUsers db') = [] /\
     linked i (bookingsOnServices db') = [] /\
     forall j, j <> i ->
       linked j (bookingsOnUsers db') = linked j (bookingsOnUsers db) /\
       linked j (bookingsOnServices db') = linked j (bookingsOnServices db)).
Proof.
  rewrite handle2_delete. destruct (findUnique db i) as [b|] eqn:F.
  - split; [discriminate|]. intros _.
    assert (G : findUnique
                  {| users := users db; services := services db;
                     bookings := otherRows i db;
                     bookingsOnUsers := dropLinks i (bookingsOnUsers db);
                     bookingsOnServices := dropLinks i (bookingsOnServices db) |} i = None).
    { unfold findUnique, otherRows. cbn [bookings]. apply find_otherRows. }
    split; [reflexivity|]. split; [exact G|]. split.
    { rewrite handle_get, G. reflexivity. }
    cbn [bookings bookingsOnUsers bookingsOnServices].
    split; [reflexivity|].
    split; [apply linked_dropLinks_same|].
    split; [apply linked_dropLinks_same|].
    intros j N. split; now apply linked_dropLinks_other.
  - split; [now split|]. intros N. now contradiction N.
Qed.

Lemma hasConflict_rows db S E :
  hasConflict db S E None = existsb (sourceOverlaps S E) (bookings db).
Proof.
  unfold hasConflict, conflictingBooking, findFirst.
  rewrite isSome_find_existsb.
  induction (bookings db) as [|b l IH]; [reflexivity|].
  cbn [existsb]. rewrite IH. f_equal. apply whereMatches_overlapOR.
Qed.

(** X14. Deleting a booking frees exactly its slot: the conflict check of a
    creation on the store after DELETE /:id answers what the conflict check
    of an update of that booking answered before. *)
Theorem delete_frees_the_slot db i S E :
  hasConflict (snd (fst (handle2 (delete i) db))) S E None =
  hasConflict db S E (Some i).
Proof.
  rewrite handle2_delete, hasConflict_excluding, hasConflict_rows.
  destruct (findUnique db i) as [b|] eqn:F; cbn [snd bookings]; [reflexivity|].
  now rewrite otherRows_absent.
Qed.

Lemma otherRows_app_fresh newId rows b :
  ~ In newId (map id rows) -> id b = newId ->
  filter (fun x => negb (String.eqb (id x) newId)) (rows ++ [b]) = rows.
Proof.
  intros N Hb. rewrite filter_app. cbn. rewrite Hb, String.eqb_refl. cbn.
  rewrite app_nil_r. induction rows as [|x r IH]; cbn; [reflexivity|].
  cbn in N. destruct (String.eqb (id x) newId) eqn:E.
  - apply String.eqb_eq in E. exfalso. apply N. now left.
  - cbn. rewrite IH; [reflexivity|]. intros I. apply N. now right.
Qed.

Lemma dropLinks_fresh P newId ids (links : list Link) :
  Forall (fun l => In (bookingId l) ids /\ P l) links ->
  ~ In newId ids -> dropLinks newId links = links.
Proof.
  intros F N. unfold dropLinks. induction F as [|l r [I _] _ IH]; cbn; [reflexivity|].
  destruct (String.eqb (bookingId l) newId) eqn:E.
  - apply String.eqb_eq in E. congruence.
  - cbn. now rewrite IH.
Qed.

(** X15. On a store that meets the constraints, creating a booking and deleting
    it again gives the store back. *)
Theorem create_then_delete db newId req :
  wellFormed db ->
  createCheck db req = false ->
  createAccepted db newId (createDataOf req) = true ->
  fst (handle2 (delete newId) (snd (fst (handle (post newId req) db)))) = (deleted, db).
Proof.
  intros [P Fu Fs Ku Ks] C A. rewrite handle_post, C, A. cbn [fst snd].
  assert (Fresh : ~ In newId (bookingIds db)).
  { unfold createAccepted in A. rewrite !andb_true_iff, negb_true_iff in A.
    intros I. apply memb_In in I. destruct A as [[[[[[A _] _] _] _] _] _]. congruence. }
  rewrite handle2_delete.
  assert (F : findUnique (insertBooking db newId (createDataOf req)) newId =
              Some (newBooking newId (createDataOf req))).
  { unfold findUnique. cbn [insertBooking bookings]. rewrite find_app_fresh.
    - cbn [newBooking id]. now rewrite String.eqb_refl.
    - rewrite existsb_memb_ids. apply not_true_iff_false. intros M.
      apply memb_In in M. now apply Fresh. }
  rewrite F. f_equal. unfold otherRows.
  apply DB_ext; cbn [insertBooking users services bookings bookingsOnUsers bookingsOnServices];
    try reflexivity.
  - now apply otherRows_app_fresh.
  - rewrite dropLinks_app, dropLinks_linksOf, app_nil_r.
    exact (dropLinks_fresh _ newId _ _ Fu Fresh).
  - rewrite dropLinks_app, dropLinks_linksOf, app_nil_r.
    exact (dropLinks_fresh _ newId _ _ Fs Fresh).
Qed.

Lemma create_then_delete_witness :
  wellFormed emptyStore /\
  fst (handle2 (delete "n1")
         (snd (fst (handle (post "n1" (request (jan1 9 0) (jan1 10 0))) emptyStore)))) =
  (deleted, emptyStore).
Proof.
  split; [exact wellFormed_emptyStore|].
  exact (create_then_delete emptyStore "n1" (request (jan1 9 0) (jan1 10 0))
           wellFormed_emptyStore eq_refl eq_refl).
Defined.

(* ------------------------------------------------------------------ *)
(** ** GET /: the list *)

Lemma insertByStart_perm ties b l : Permutation (insertByStart ties b l) (b :: l).
Proof.
  induction l as [|x r IH]; cbn; [reflexivity|].
  destruct (_ || _); [reflexivity|].
  rewrite IH. apply perm_swap.
Qed.

Lemma sortByStart_perm ties l : Permutation (sortByStart ties l) l.
Proof.
  induction l as [|b r IH]; cbn; [reflexivity|].
  rewrite insertByStart_perm. now constructor.
Qed.

(** [b] goes before [x] only when it does not start later, and after it
    only when it does not start earlier. *)
Lemma before_byStart (ties : Ties) b x :
  (startTime b <? startTime x) || ((startTime b =? startTime x) && ties b x) = true ->
  byStart b x.
Proof.
  rewrite orb_true_iff, andb_true_iff, Z.ltb_lt, Z.eqb_eq. unfold byStart. lia.
Qed.

Lemma after_byStart (ties : Ties) b x :
  (startTime b <? startTime x) || ((startTime b =? startTime x) && ties b x) = false ->
  byStart x b.
Proof.
  rewrite orb_false_iff, Z.ltb_ge. unfold byStart. intros [H _]. exact H.
Qed.

Lemma insertByStart_sorted ties b l :
  Sorted byStart l -> Sorted byStart (insertByStart ties b l).
Proof.
  induction l as [|x r IH]; cbn; intros S.
  - repeat constructor.
  - destruct (_ || _) eqn:E.
    + constructor; [assumption|]. constructor. now apply (before_byStart ties).
    + apply after_byStart in E. inversion S as [|? ? Sr Hx]; subst.
      constructor; [now apply IH|].
      destruct r as [|y r']; cbn.
      * constructor. exact E.
      * destruct (_ || _).
        -- constructor. exact E.
        -- constructor. now inversion Hx.
Qed.

Lemma sortByStart_sorted ties l : StronglySorted byStart (sortByStart ties l).
Proof.
  apply Sorted_StronglySorted.
  - intros a b c. unfold byStart. lia.
  - induction l as [|b r IH]; cbn; [constructor|now apply insertByStart_sorted].
Qed.

Lemma truthy_Some o s :
  truthy o = Some s <-> o = Some s /\ s <> ""%string.
Proof.
  unfold truthy. destruct o as [x|].
  - destruct (String.eqb x "") eqn:E.
    + apply String.eqb_eq in E. subst. split; [discriminate|intros [[= <-] N]; now contradiction N].
    + apply String.eqb_neq in E. split; [intros [= <-]; now split|intros [[= <-] _]; reflexivity].
  - split; [discriminate|intros [H _]; discriminate H].
Qed.

Lemma truthy_None o : truthy o = None <-> forall s, o = Some s -> s = ""%string.
Proof.
  unfold truthy. destruct o as [x|].
  - destruct (String.eqb x "") eqn:E.
    + apply String.eqb_eq in E. subst. split; [intros _ s [= <-]; reflexivity|reflexivity].
    + apply String.eqb_neq in E. split; [discriminate|].
      intros H. now contradiction E; apply H.
  - split; [intros _ s H; discriminate H|reflexivity].
Qed.

Lemma status_eqb_eq a b : status_eqb a b = true <-> a = b.
Proof. destruct a, b; cbn; split; intros H; try reflexivity; discriminate H. Qed.

Lemma whereMatches_listWhereOf db q b :
  whereMatches db (listWhereOf q) b = true <-> selected db q b.
Proof.
  unfold listWhereOf, listWhere, selected. cbn [whereMatches].
  rewrite !forallb_app, !andb_true_iff.
  assert (D : forallb (fun w' => whereMatches db w' b)
                (optKey match startDate q, endDate q with
                        | Some s, Some e => Some (s, e)
                        | _, _ => None
                        end
                   (fun d => W_startTime {| Filter.lt := None; Filter.lte := Some (snd d);
                                            Filter.gt := None; Filter.gte := Some (fst d) |}))
              = true <->
              (forall s e, startDate q = Some s -> endDate q = Some e ->
                           s <= startTime b <= e)).
  { destruct (startDate q) as [s|], (endDate q) as [e|]; cbn;
      try (split; [intros _ s' e' H1 H2; discriminate|reflexivity]).
    unfold Filter.matches, Filter.holds; cbn.
    rewrite !andb_true_r, andb_true_iff, Z.leb_le, Z.geb_le. split.
    - intros [H1 H2] s' e' [= <-] [= <-]. lia.
    - intros H. specialize (H s e eq_refl eq_refl). lia. }
  assert (St : forallb (fun w' => whereMatches db w' b) (optKey (q_status q) W_status) = true
               <-> (forall st, q_status q = Some st -> status b = st)).
  { destruct (q_status q) as [st|]; cbn.
    - rewrite andb_true_r, status_eqb_eq. split; [intros H st' [= <-]; exact H|auto].
    - split; [intros _ st H; discriminate H|reflexivity]. }
  assert (U : forallb (fun w' => whereMatches db w' b)
                (optKey (truthy (userId q)) W_users_some) = true
              <-> (forall u, userId q = Some u -> u <> ""%string ->
                             In u (linked (id b) (bookingsOnUsers db)))).
  { destruct (truthy (userId q)) as [u|] eqn:T; cbn.
    - apply truthy_Some in T. destruct T as [T N].
      rewrite andb_true_r, memb_In. split.
      + intros H u' E _. rewrite T in E. now injection E as <-.
      + intros H. now apply H.
    - rewrite truthy_None in T. split; [|reflexivity].
      intros _ u E N. now contradiction N; apply T. }
  assert (Sv : forallb (fun w' => whereMatches db w' b)
                 (optKey (truthy (serviceId q)) W_services_some) = true
               <-> (forall s, serviceId q = Some s -> s <> ""%string ->
                              In s (linked (id b) (bookingsOnServices db)))).
  { destruct (truthy (serviceId q)) as [u|] eqn:T; cbn.
    - apply truthy_Some in T. destruct T as [T N].
      rewrite andb_true_r, memb_In. split.
      + intros H u' E _. rewrite T in E. now injection E as <-.
      + intros H. now apply H.
    - rewrite truthy_None in T. split; [|reflexivity].
      intros _ u E N. now contradiction N; apply T. }
  rewrite D, St, U, Sv. tauto.
Qed.

(** X17. GET / changes nothing and answers 200 with the stored bookings that the
    query string selects, each once for each time it is stored, in ascending
    order of startTime, whatever order the database gives to bookings of
    equal startTime. The dates select by the start of a booking alone and
    only when both are given; an empty userId or serviceId selects
    nothing. *)
Theorem list_selects_and_sorts ties db q :
  let '(res, db', _) := handle2 (getAll ties q) db in
  db' = db /\
  exists rows,
    res = respond2 200 (BookingsJson (map (withRelations db) rows)) /\
    (forall b, In b rows <-> In b (bookings db) /\ selected db q b) /\
    Permutation rows (filter (whereMatches db (listWhereOf q)) (bookings db)) /\
    StronglySorted byStart rows.
Proof.
  unfold handle2, getAll, listProgram.
  cbn [program2 onError2 bind2 await2 run2 exec2]. split; [reflexivity|].
  exists (sortByStart ties (filter (whereMatches db (listWhereOf q)) (bookings db))).
  split; [reflexivity|]. split; [|split].
  - intros b. rewrite <- whereMatches_listWhereOf, <- filter_In. split.
    + apply Permutation_in, sortByStart_perm.
    + apply Permutation_in. symmetry. apply sortByStart_perm.
  - apply sortByStart_perm.
  - apply sortByStart_sorted.
Qed.

(* ------------------------------------------------------------------ *)
(** ** GET /calendar: the week *)

Ltac week_arith :=
  unfold startOfWeek, endOfWeek, getDay, localDay, dayMs in *; cbv zeta in *;
  repeat match goal with
         | |- context [?a <? ?b] => destruct (Z.ltb_spec a b)
         | H : context [?a <? ?b] |- _ => destruct (Z.ltb_spec a b)
         end;
  Z.div_mod_to_equations; lia.

Lemma week_contains tz t : startOfWeek tz t <= t <= endOfWeek tz t.
Proof. week_arith. Qed.

Lemma week_length tz t : endOfWeek tz t = startOfWeek tz t + 7 * dayMs - 1.
Proof. week_arith. Qed.

Lemma week_starts_monday tz t :
  getDay tz (startOfWeek tz t) = 1 /\ (startOfWeek tz t + tz) mod dayMs = 0.
Proof. split; week_arith. Qed.

Lemma week_of_same_week tz t t' :
  startOfWeek tz t <= t' <= endOfWeek tz t ->
  startOfWeek tz t' = startOfWeek tz t.
Proof. intros H. week_arith. Qed.

(** 2024-01-01 was a Monday. *)
Lemma week_of_jan1 :
  startOfWeek 0 (jan1 9 0) = jan1 0 0 /\
  endOfWeek 0 (jan1 9 0) = jan1 0 0 + 7 * dayMs - 1 /\
  startOfWeek 0 (jan1 0 0 + 6 * dayMs + 1) = jan1 0 0 /\
  startOfWeek 0 (jan1 0 0 - 1) = jan1 0 0 - 7 * dayMs.
Proof. repeat split. Qed.

(** X18. The week of GET /calendar, on a server whose local time is a fixed
    offset from UTC: it contains the date, lasts seven days less a
    millisecond, starts on a Monday at local midnight, and is the same for
    every date inside it. *)
Theorem calendar_week tz t t' :
  startOfWeek tz t <= t <= endOfWeek tz t /\
  endOfWeek tz t = startOfWeek tz t + 7 * dayMs - 1 /\
  getDay tz (startOfWeek tz t) = 1 /\
  (startOfWeek tz t + tz) mod dayMs = 0 /\
  (startOfWeek tz t <= t' <= endOfWeek tz t ->
   startOfWeek tz t' = startOfWeek tz t /\ endOfWeek tz t' = endOfWeek tz t).
Proof.
  split; [apply week_contains|]. split; [apply week_length|].
  split; [apply week_starts_monday|]. split; [apply week_starts_monday|].
  intros H. apply week_of_same_week in H.
  split; [exact H|]. now rewrite !week_length, H.
Qed.

Lemma whereMatches_weekWhere db tz d b :
  whereMatches db (weekWhere tz d) b = true <->
  startOfWeek tz d <= startTime b <= endOfWeek tz d.
Proof.
  unfold weekWhere. cbn [whereMatches forallb].
  unfold Filter.matches, Filter.holds; cbn [Filter.lt Filter.lte Filter.gt Filter.gte].
  cbn [andb]. rewrite !andb_true_r, andb_true_iff, Z.leb_le, Z.geb_le. lia.
Qed.

(** X19. GET /calendar changes nothing and answers 200 with one entry for each
    stored booking that starts within the week of the date (of the clock,
    when no date is given), in ascending order of start, whatever order the
    database gives to bookings of equal startTime; a booking that starts
    before the week is not among them, whenever it ends. *)
Theorem calendar_lists_the_week ties dir tz now date db :
  let d := match date with Some d => d | None => now end in
  let '(res, db', _) := handle2 (getCalendar ties dir tz now date) db in
  db' = db /\
  exists rows,
    res = respond2 200 (EventsJson (map (eventOf dir) (map (withRelations db) rows))) /\
    (forall b, In b rows <->
               In b (bookings db) /\ startOfWeek tz d <= startTime b <= endOfWeek tz d) /\
    Permutation rows (filter (whereMatches db (weekWhere tz d)) (bookings db)) /\
    StronglySorted byStart rows.
Proof.
  cbv zeta. unfold handle2, getCalendar, calendarProgram.
  cbn [program2 onError2 bind2 await2 run2 exec2]. split; [reflexivity|].
  set (d := match date with Some d => d | None => now end).
  exists (sortByStart ties (filter (whereMatches db (weekWhere tz d)) (bookings db))).
  split; [reflexivity|]. split; [|split].
  - intros b. rewrite <- whereMatches_weekWhere, <- filter_In. split.
    + apply Permutation_in, sortByStart_perm.
    + apply Permutation_in. symmetry. apply sortByStart_perm.
  - apply sortByStart_perm.
  - apply sortByStart_sorted.
Qed.

(** The week of 2024-01-01 on a server in UTC: "b1" and "b2" of that Monday
    are listed, in that order, whatever the order of the table. *)
Lemma calendar_scenario ties dir :
  fst (fst (handle2 (getCalendar ties dir 0 0 (Some (jan1 0 0 + 3 * dayMs)))
                    (storeOf [b2; booked "early" (jan1 0 0 - 1) (jan1 9 0); b1]))) =
  respond2 200 (EventsJson
    (map (eventOf dir)
       [ {| row := b1; incUsers := []; incServices := [] |};
         {| row := b2; incUsers := []; incServices := [] |} ])).
Proof. reflexivity. Qed.

(* ------------------------------------------------------------------ *)
(** ** An update and a deletion in flight *)

(** X20. An update that has read its booking (and found no conflict) and is then
    overtaken by the deletion of that booking answers 500, not 404: its
    write throws. The deletion answers 200 and the booking is gone. *)
Theorem update_overtaken_by_delete db i req b :
  findUnique db i = Some b ->
  updateCheck db i req = false ->
  let '(db', pool') :=
    interleave2 (overtaken req) db [liftRoute (put i req); delete i] in
  map answer pool' = [Some (plain updateFailed); Some deleted] /\
  findUnique db' i = None /\
  bookings db' = otherRows i db.
Proof.
  intros Hb Hc.
  assert (Gone : forall u s us ss,
            findUnique {| users := u; services := s; bookings := otherRows i db;
                          bookingsOnUsers := us; bookingsOnServices := ss |} i = None).
  { intros. unfold findUnique, otherRows. cbn [bookings]. apply find_otherRows. }
  unfold overtaken, updateCheck in *.
  destruct (UpdateBody.startTime req) as [s|] eqn:Es;
    [destruct (UpdateBody.endTime req) as [e|] eqn:Ee|].
  - unfold hasConflict, conflictingBooking, conflictWhere in Hc.
    destruct (findFirst db (updateConflictWhere i s e)) as [c|] eqn:Ff; [discriminate|].
    cbn [interleave2 stepAt2]. unfold stepRoute2.
    cbn [liftRoute put putProgram program2 onError2 program onError lift bind await
         exec2 exec].
    rewrite Hb, Es, Ee. cbn [lift bind exec2 exec program2 onError2]. rewrite Ff.
    cbn [delete deleteProgram program2 onError2 bind2 await2 exec2 exec].
    rewrite Hb. cbn [bind2 exec2 program2 onError2]. unfold deleteBooking. rewrite Hb.
    rewrite putWrite_eq. cbn [lift exec2 exec program2 onError2].
    unfold update. fold (otherRows i db). rewrite Gone.
    cbn [map answer program2]. repeat split. apply Gone.
  - cbn [interleave2 stepAt2]. unfold stepRoute2.
    cbn [liftRoute put putProgram program2 onError2 program onError lift bind await
         exec2 exec].
    rewrite Hb, Es, Ee. cbn [lift bind exec2 exec program2 onError2].
    cbn [delete deleteProgram program2 onError2 bind2 await2 exec2 exec].
    rewrite Hb. cbn [bind2 exec2 program2 onError2]. unfold deleteBooking. rewrite Hb.
    rewrite putWrite_eq. cbn [lift exec2 exec program2 onError2].
    unfold update. fold (otherRows i db). rewrite Gone.
    cbn [map answer program2]. repeat split. apply Gone.
  - cbn [interleave2 stepAt2]. unfold stepRoute2.
    cbn [liftRoute put putProgram program2 onError2 program onError lift bind await
         exec2 exec].
    rewrite Hb, Es. cbn [lift bind exec2 exec program2 onError2].
    cbn [delete deleteProgram program2 onError2 bind2 await2 exec2 exec].
    rewrite Hb. cbn [bind2 exec2 program2 onError2]. unfold deleteBooking. rewrite Hb.
    rewrite putWrite_eq. cbn [lift exec2 exec program2 onError2].
    unfold update. fold (otherRows i db). rewrite Gone.
    cbn [map answer program2]. repeat split. apply Gone.
Qed.

Lemma update_overtaken_witness :
  findUnique twoStore "b2" = Some b2 /\
  updateCheck twoStore "b2" (moveStart (jan1 9 30)) = false /\
  (let '(db', pool') :=
     interleave2 (overtaken (moveStart (jan1 9 30))) twoStore
       [liftRoute (put "b2" (moveStart (jan1 9 30))); delete "b2"] in
   map answer pool' = [Some (plain updateFailed); Some deleted] /\
   findUnique db' "b2" = None /\ bookings db' = [b1]).
Proof.
  split; [reflexivity|]. split; [reflexivity|].
  pose proof (update_overtaken_by_delete twoStore "b2" (moveStart (jan1 9 30)) b2
                eq_refl eq_refl) as H.
  destruct (interleave2 _ _ _) as [db' pool'].
  destruct H as (A & B & C). split; [exact A|]. split; [exact B|].
  rewrite C. reflexivity.
Defined.

(* ================================================================== *)
(** * Part VI: the caller, services/api.ts *)

Import Client.

Lemma header_setHeader name value h :
  header name (setHeader name value h) = Some value.
Proof.
  unfold header. induction h as [|[n v] r IH]; cbn.
  - now rewrite String.eqb_refl.
  - destruct (String.eqb n name) eqn:E; cbn; rewrite E; [reflexivity|exact IH].
Qed.

Section ApiRequest.

Context {V : Type} (errorOf tokenOf : V -> Member).

Implicit Types (net : @Net V) (r : @HttpResponse V).

Lemma ok_not_403 r : ok r = true -> (h_status r =? 403) = false.
Proof.
  unfold ok. rewrite andb_true_iff, !Z.leb_le. intros [_ H].
  apply Z.eqb_neq. lia.
Qed.

Lemma forbidden_not_ok r : h_status r = 403 -> ok r = false.
Proof. unfold ok. intros ->. reflexivity. Qed.

(** A request whose first answer is a 2xx returns the parsed body of that
    answer (or passes on the rejection when the body is not JSON), after one
    fetch and with the stored tokens untouched. *)
Lemma api_first_answer_ok net st endpoint o r :
  net 0%nat (configOf endpoint (token st) o) = Some r ->
  ok r = true ->
  apiRequest errorOf tokenOf net st endpoint o =
  {| result := match parsed r with
               | Some j => Returned j
               | None => Thrown Rejection
               end;
     storage := st;
     sent := [configOf endpoint (token st) o];
     redirected := false |}.
Proof.
  intros N K. unfold apiRequest. rewrite N, (ok_not_403 r K).
  unfold conclude. now rewrite K.
Qed.

Lemma refreshAndRetry_shape net st config :
  match refreshAndRetry tokenOf net st config with
  | (Some (r', st'), more) =>
      (exists t, st' = setAuthToken t st /\ net 2%nat (retryOf config t) = Some r') /\
      List.length more = 2%nat
  | (None, more) => (List.length more <= 2)%nat
  end.
Proof.
  unfold refreshAndRetry.
  destruct (truthyStr (refreshToken st)) as [rt|]; [|cbn; lia].
  destruct (net 1%nat (refreshRequest rt)) as [rr|]; [|cbn; lia].
  destruct (ok rr); [|cbn; lia].
  destruct (parsed rr) as [[|rd]|]; [cbn; lia| |cbn; lia].
  destruct (net 2%nat _) as [r2|] eqn:N2; [|cbn; lia].
  split; [eexists; split; [reflexivity|exact N2]|reflexivity].
Qed.

Lemma conclude_Returned r used j :
  conclude errorOf r used = Returned j -> ok r = true /\ parsed r = Some j.
Proof.
  unfold conclude. destruct (ok r); [|discriminate].
  destruct used; [discriminate|].
  destruct (parsed r) as [x|]; [|discriminate]. intros [= ->]. now split.
Qed.

(** A 403 whose body has been read ends as "Network error". *)
Lemma conclude_forbidden_read r :
  h_status r = 403 -> conclude errorOf r true = Thrown (ErrorMsg "Network error").
Proof.
  intros S. unfold conclude. now rewrite (forbidden_not_ok r S).
Qed.

(** X21. Whatever the network answers, apiRequest sends at most three requests,
    the first being the request asked for. A value it returns is the parsed
    body of a 2xx answer, to the request or to its second send. When it
    redirects to the login page it has removed the three keys from the
    storage and throws the authentication failure; when it does not, the
    storage is as it was or has the token replaced and nothing else
    changed. *)
Theorem api_outcomes net st endpoint o :
  let config := configOf endpoint (token st) o in
  let out := apiRequest errorOf tokenOf net st endpoint o in
  (List.length (sent out) <= 3)%nat /\
  hd_error (sent out) = Some config /\
  (forall v, result out = Returned v ->
     exists r, ok r = true /\ parsed r = Some v /\
               (net 0%nat config = Some r \/
                exists t, net 2%nat (retryOf config t) = Some r)) /\
  (redirected out = true ->
     storage out = removeAllTokens st /\ result out = Thrown authFailed) /\
  (redirected out = false ->
     storage out = st \/ exists t, storage out = setAuthToken t st).
Proof.
  cbv zeta. unfold apiRequest.
  destruct (net 0%nat (configOf endpoint (token st) o)) as [r|] eqn:N0;
    [|cbn; repeat split; try discriminate; auto; lia].
  destruct (h_status r =? 403).
  - destruct (tokenExpired errorOf r) as [[|]|].
    + pose proof (refreshAndRetry_shape net st (configOf endpoint (token st) o)) as S.
      destruct (refreshAndRetry tokenOf net st (configOf endpoint (token st) o))
        as [[[r' st']|] more];
        cbn [sent storage redirected result hd_error List.length].
      * destruct S as [(t & -> & N2) L]. rewrite L.
        split; [lia|]. split; [reflexivity|]. split; [|split].
        -- intros v C. apply conclude_Returned in C. destruct C as [K P].
           exists r'. split; [exact K|]. split; [exact P|]. right. now exists t.
        -- discriminate.
        -- intros _. right. now exists t.
      * split; [lia|]. split; [reflexivity|]. split; [discriminate|].
        split; [now split|discriminate].
    + cbn [sent storage redirected result hd_error List.length].
      split; [lia|]. split; [reflexivity|]. split; [|split; [discriminate|auto]].
      intros v C. apply conclude_Returned in C. destruct C as [K P].
      exists r. split; [exact K|]. split; [exact P|]. now left.
    + cbn [sent storage redirected result hd_error List.length].
      split; [lia|]. split; [reflexivity|]. split; [discriminate|].
      split; [discriminate|auto].
  - cbn [sent storage redirected result hd_error List.length].
    split; [lia|]. split; [reflexivity|]. split; [|split; [discriminate|auto]].
    intros v C. apply conclude_Returned in C. destruct C as [K P].
    exists r. split; [exact K|]. split; [exact P|]. now left.
Qed.

(** X22. A 403 that is not the expired token never shows its own message. When
    its body is [null], reading [errorData.error] throws a TypeError. In
    every other case (an object with another error, any other JSON value, a
    body that is not JSON) the caller gets "Network error": the body is
    read once to look for the expired token and cannot be read again for
    the message. One request is sent and the stored tokens are
    untouched. *)
Theorem api_forbidden_is_network_error net st endpoint o r :
  net 0%nat (configOf endpoint (token st) o) = Some r ->
  h_status r = 403 ->
  tokenExpired errorOf r <> Some true ->
  apiRequest errorOf tokenOf net st endpoint o =
  {| result := Thrown match parsed r with
                      | Some Null => TypeError
                      | _ => ErrorMsg "Network error"
                      end;
     storage := st;
     sent := [configOf endpoint (token st) o];
     redirected := false |}.
Proof.
  intros N S E. unfold apiRequest. rewrite N, S. cbn [Z.eqb Pos.eqb].
  rewrite (conclude_forbidden_read r S).
  unfold tokenExpired in *.
  destruct (parsed r) as [[|v]|]; [reflexivity| |reflexivity].
  destruct (isString _ _); [now contradiction E|reflexivity].
Qed.

(** X23. When the token has expired and the refresh is granted with a body other
    than [null], the new token is stored (the refresh token and the user
    stay), the request is sent once more with the new token as its
    Authorization, and the call ends as the answer to that second send
    says; a second expired-token answer is not refreshed again but
    thrown. *)
Theorem api_refresh_then_retry net st endpoint o r rt rr rd r2 :
  let config := configOf endpoint (token st) o in
  let t := jsString (tokenOf rd) in
  net 0%nat config = Some r ->
  h_status r = 403 -> tokenExpired errorOf r = Some true ->
  truthyStr (refreshToken st) = Some rt ->
  net 1%nat (refreshRequest rt) = Some rr ->
  ok rr = true -> parsed rr = Some (Value rd) ->
  net 2%nat (retryOf config t) = Some r2 ->
  apiRequest errorOf tokenOf net st endpoint o =
    {| result := conclude errorOf r2 false;
       storage := {| token := Some t; refreshToken := refreshToken st; user := user st |};
       sent := [config; refreshRequest rt; retryOf config t];
       redirected := false |} /\
  header "Authorization" (headers (retryOf config t)) = Some ("Bearer " ++ t)%string /\
  (h_status r2 = 403 -> tokenExpired errorOf r2 = Some true ->
   conclude errorOf r2 false = Thrown (ErrorMsg "Invalid or expired token")).
Proof.
  cbv zeta. intros N S E T N1 K1 P1 N2. split; [|split].
  - unfold apiRequest. rewrite N, S, E. cbn [Z.eqb Pos.eqb].
    unfold refreshAndRetry. rewrite T, N1, K1, P1, N2. reflexivity.
  - apply header_setHeader.
  - intros S2 E2. unfold conclude. rewrite (forbidden_not_ok r2 S2).
    unfold tokenExpired in E2. unfold errorThrown.
    destruct (parsed r2) as [[|v]|]; [discriminate| |discriminate].
    injection E2 as E2. unfold isString in E2.
    destruct (errorOf v) as [|e|]; [discriminate| |discriminate].
    apply String.eqb_eq in E2. subst e. reflexivity.
Qed.

(** X24. Once the expired token has been answered, every failure inside the
    refresh block logs the user out: no refresh token in the storage (or an
    empty one), a rejected or refused refresh, a refresh answer that is not
    JSON or is [null], and also a rejected second send of the request after
    the refresh was granted. The three keys are removed, the page is
    redirected, the authentication failure is thrown; without a refresh
    token no refresh is asked for. *)
Theorem api_failed_refresh_logs_out net st endpoint o r :
  let config := configOf endpoint (token st) o in
  net 0%nat config = Some r ->
  h_status r = 403 -> tokenExpired errorOf r = Some true ->
  (truthyStr (refreshToken st) = None \/
   exists rt, truthyStr (refreshToken st) = Some rt /\
     (net 1%nat (refreshRequest rt) = None \/
      exists rr, net 1%nat (refreshRequest rt) = Some rr /\
        (ok rr = false \/ parsed rr = None \/ parsed rr = Some Null \/
         exists rd, ok rr = true /\ parsed rr = Some (Value rd) /\
                    net 2%nat (retryOf config (jsString (tokenOf rd))) = None))) ->
  let out := apiRequest errorOf tokenOf net st endpoint o in
  result out = Thrown authFailed /\
  storage out = {| token := None; refreshToken := None; user := None |} /\
  redirected out = true /\
  (truthyStr (refreshToken st) = None -> sent out = [config]).
Proof.
  cbv zeta. intros N S E F. unfold apiRequest. rewrite N, S, E.
  cbn [Z.eqb Pos.eqb]. unfold refreshAndRetry.
  destruct F as [T|(rt & T & F)]; rewrite T; [now repeat split|].
  destruct F as [F|(rr & F & [K|[Q|[Q|(rd & K & Q & F2)]]])]; rewrite F.
  - repeat split. discriminate.
  - rewrite K. repeat split. discriminate.
  - rewrite Q. destruct (ok rr); repeat split; discriminate.
  - rewrite Q. destruct (ok rr); repeat split; discriminate.
  - rewrite K, Q, F2. repeat split. discriminate.
Qed.

End ApiRequest.

(** *** Scenarios *)

(** A DELETE refused with "Admin access required", and one refused with
    the body [null]. *)
Lemma api_forbidden_witness :
  apiDelete o_error o_token (fun _ _ => Some (errorAnswer 403 "Admin access required"))
    loggedIn "/bookings/b1" =
  {| result := Thrown (ErrorMsg "Network error");
     storage := loggedIn;
     sent := [ {| url := "/api/bookings/b1"; method := Some "DELETE"%string;
                  headers := [("Content-Type", "application/json");
                              ("Authorization", "Bearer old")]%string;
                  payload := None |} ];
     redirected := false |} /\
  result (apiDelete o_error o_token (fun _ _ => Some (nullAnswer 403))
            loggedIn "/bookings/b1") =
  Thrown TypeError.
Proof.
  unfold apiDelete. split.
  - rewrite (api_forbidden_is_network_error o_error o_token
               (fun _ _ => Some (errorAnswer 403 "Admin access required")) loggedIn
               "/bookings/b1"
               {| o_method := Some "DELETE"%string; o_body := None; o_headers := None |}
               (errorAnswer 403 "Admin access required") eq_refl eq_refl
               ltac:(discriminate)).
    reflexivity.
  - rewrite (api_forbidden_is_network_error o_error o_token
               (fun _ _ => Some (nullAnswer 403)) loggedIn
               "/bookings/b1"
               {| o_method := Some "DELETE"%string; o_body := None; o_headers := None |}
               (nullAnswer 403) eq_refl eq_refl ltac:(discriminate)).
    reflexivity.
Defined.

Lemma api_refresh_then_retry_witness :
  apiGet o_error o_token alwaysExpired loggedIn "/bookings" =
  {| result := Thrown (ErrorMsg "Invalid or expired token");
     storage := {| token := Some "new"%string; refreshToken := Some "r"%string;
                   user := Some "u"%string |};
     sent := [ {| url := "/api/bookings"; method := None;
                  headers := [("Content-Type", "application/json");
                              ("Authorization", "Bearer old")]%string;
                  payload := None |};
               refreshRequest "r";
               {| url := "/api/bookings"; method := None;
                  headers := [("Content-Type", "application/json");
                              ("Authorization", "Bearer new")]%string;
                  payload := None |} ];
     redirected := false |}.
Proof.
  unfold apiGet. fold noOptions.
  destruct (api_refresh_then_retry o_error o_token alwaysExpired loggedIn "/bookings"
              noOptions expired "r" refreshed granted expired
              eq_refl eq_refl eq_refl eq_refl eq_refl eq_refl eq_refl eq_refl)
    as (H & _ & _).
  rewrite H. reflexivity.
Defined.

(** The refresh is granted and the network fails on the second send; a
    storage whose refresh token is empty; and a refresh answered with the
    body [null]. *)
Lemma api_failed_refresh_witness :
  storage (apiGet o_error o_token failingRetry loggedIn "/bookings") =
    {| token := None; refreshToken := None; user := None |} /\
  redirected (apiGet o_error o_token failingRetry loggedIn "/bookings") = true /\
  List.length (sent (apiGet o_error o_token failingRetry loggedIn "/bookings")) = 3%nat /\
  List.length (sent (apiGet o_error o_token (fun _ _ => Some expired) noRefresh
                       "/bookings")) = 1%nat /\
  redirected (apiGet o_error o_token nullRefresh loggedIn "/bookings") = true /\
  List.length (sent (apiGet o_error o_token nullRefresh loggedIn "/bookings")) = 2%nat.
Proof.
  unfold apiGet. fold noOptions.
  destruct (api_failed_refresh_logs_out o_error o_token failingRetry loggedIn "/bookings"
              noOptions expired eq_refl eq_refl eq_refl) as (_ & H1 & H2 & _).
  - right. exists "r"%string. split; [reflexivity|].
    right. exists refreshed. split; [reflexivity|]. right. right. right.
    exists granted. repeat split.
  - destruct (api_failed_refresh_logs_out o_error o_token (fun _ _ => Some expired)
                noRefresh "/bookings" noOptions expired eq_refl eq_refl eq_refl
                (or_introl eq_refl)) as (_ & _ & _ & H3).
    destruct (api_failed_refresh_logs_out o_error o_token nullRefresh loggedIn "/bookings"
                noOptions expired eq_refl eq_refl eq_refl) as (_ & _ & H4 & _).
    + right. exists "r"%string. split; [reflexivity|].
      right. exists (nullAnswer 200). split; [reflexivity|]. right. right. now left.
    + split; [exact H1|]. split; [exact H2|]. split; [reflexivity|].
      split; [now rewrite (H3 eq_refl)|]. split; [exact H4|reflexivity].
Defined.

(* ------------------------------------------------------------------ *)
(** ** The booking routes behind the client *)

Lemma api_answering (res : Response) st endpoint o :
  code res <> 403 ->
  apiRequest errorOfBody tokenOfBody (answering res) st endpoint o =
  {| result := conclude errorOfBody (httpOf res) false; storage := st;
     sent := [configOf endpoint (token st) o]; redirected := false |}.
Proof.
  intros N. unfold apiRequest, answering. cbn [httpOf h_status].
  apply Z.eqb_neq in N. now rewrite N.
Qed.

(** X25. What the create and update routes answer reaches the caller of
    [api.post] and [api.put] as follows, with one request sent and the
    stored tokens untouched: 201 and 200 return the body of the answer; the
    409 of a conflict, the 404 of an unknown booking and the 500 of a failed
    write are thrown as errors carrying the message of the route. *)
Theorem booking_answers_reach_the_caller db newId req i ureq st data :
  let posted := fst (fst (handle (post newId req) db)) in
  let put' := fst (fst (handle (put i ureq) db)) in
  let outPost := apiPost errorOfBody tokenOfBody (answering posted) st "/bookings" data in
  let outPut := apiPut errorOfBody tokenOfBody (answering put') st ("/bookings/" ++ i) data in
  (result outPost =
     if createCheck db req
     then Thrown (ErrorMsg "Time slot conflicts with existing booking")
     else if createAccepted db newId (createDataOf req)
          then Returned (jsonOf (body posted))
          else Thrown (ErrorMsg "Failed to create booking")) /\
  (result outPut =
     match findUnique db i with
     | None => Thrown (ErrorMsg "Booking not found")
     | Some _ =>
         if updateCheck db i ureq
         then Thrown (ErrorMsg "Time slot conflicts with existing booking")
         else if code put' =? 200
              then Returned (jsonOf (body put'))
              else Thrown (ErrorMsg "Failed to update booking")
     end) /\
  storage outPost = st /\ storage outPut = st /\
  List.length (sent outPost) = 1%nat /\ List.length (sent outPut) = 1%nat.
Proof.
  cbv zeta. unfold apiPost, apiPut.
  assert (Np : code (fst (fst (handle (post newId req) db))) <> 403).
  { rewrite handle_post. destruct (createCheck db req); [discriminate|].
    destruct (createAccepted db newId (createDataOf req)); discriminate. }
  assert (Nu : code (fst (fst (handle (put i ureq) db))) <> 403).
  { rewrite handle_put.
    destruct (putOutcome_code db i ureq) as (_ & _ & [H|[H|[H|H]]]); rewrite H;
      discriminate. }
  rewrite !api_answering by assumption. cbn [result storage sent List.length].
  split; [|split; [|now repeat split]].
  - rewrite handle_post. destruct (createCheck db req); [reflexivity|].
    destruct (createAccepted db newId (createDataOf req)); reflexivity.
  - rewrite handle_put. unfold putOutcome.
    destruct (findUnique db i) as [b|]; [|reflexivity].
    destruct (updateCheck db i ureq); [reflexivity|].
    destruct (relinkUsers i ureq (updated db i ureq)) as [ok1 db1].
    destruct ok1; [|reflexivity].
    destruct (relinkServices i ureq db1) as [ok2 db2].
    destruct ok2; reflexivity.
Qed.
